(** * EcoEnergy device monitoring: organization-scoped admin

A shallow embedding of [dispositivos/models.py] and
[dispositivos/admin.py].

- Tables are lists of rows; a foreign key is the primary key of the row it
  points to, a nullable foreign key an [option].
- A queryset is lazy in the source: it is a query, run against the
  database each time it is counted or updated.  Here it is the row
  predicate of that query, a function of the database and the row.
  Row order ([ordering]) is not modelled.
- The admin actions change the database and leave messages for the
  operator; both are threaded through a [Site.t] state.
- An action is run from a change list: on the admin's queryset, with the
  filters of the URL applied, narrowed to the ticked rows. *)

From Stdlib Require Import ZArith List Ascii String Bool Lia Floats DecimalString.
Import ListNotations.
Open Scope string_scope.
Open Scope Z_scope.

(** f'{n}' for a row count *)
Definition str (n : nat) : string := NilZero.string_of_uint (Nat.to_uint n).

(** [x in [a, b, ...]] for strings *)
Definition str_in (x : string) (l : list string) : bool := existsb (String.eqb x) l.

(** [a == b] on nullable foreign keys: model instances compare by primary
    key, [None == None] is true, [None] equals no instance. *)
Definition fk_eq (a b : option Z) : bool :=
  match a, b with
  | Some x, Some y => x =? y
  | None, None => true
  | _, _ => false
  end.

(** A keyword argument that may be left out: the field default is used. *)
Definition kwarg {A : Type} (default : A) (given : option A) : A :=
  match given with
  | Some v => v
  | None => default
  end.

(** f'{n}' for an integer such as a primary key *)
Definition str_int (z : Z) : string := NilZero.string_of_int (Z.to_int z).

(** The double quote character. *)
Definition dquote : Ascii.ascii := Ascii.ascii_of_nat 34.

(** [html.escape], which [format_html] applies to each argument: the five
    characters below are replaced, one by one, the others kept. *)
Definition escape_char (c : Ascii.ascii) : string :=
  if Ascii.eqb c "&"%char then "&amp;"
  else if Ascii.eqb c "<"%char then "&lt;"
  else if Ascii.eqb c ">"%char then "&gt;"
  else if Ascii.eqb c dquote then "&quot;"
  else if Ascii.eqb c "'"%char then "&#x27;"
  else String c "".

Fixpoint escape (s : string) : string :=
  match s with
  | "" => ""
  | String c s' => escape_char c ++ escape s'
  end.

(** The link of a device count: [url] as the address, [count] as the
    text. *)
Definition device_link (url : string) (count : nat) : string :=
  "<a href=" ++ String dquote (escape url) ++ String dquote ">"
    ++ str count ++ " dispositivos</a>".

(** ** models.py *)

Module BaseModel.
Definition STATES : list string := ["ACTIVE"; "INACTIVE"].

Record t := mk {
  state : string;
  created_at : Z;
  updated_at : Z;
  deleted_at : option Z
}.

(** A new row saved at time [now]: [state] has [default="ACTIVE"],
    [created_at] is [auto_now_add], [updated_at] is [auto_now],
    [deleted_at] is null. *)
Definition create (now : Z) (state : option string) : t :=
  mk (kwarg "ACTIVE" state) now now None.

(** [save()] at time [now] of an instance [b] that is already in the table:
    the row stored is the instance as it stands, with whatever values its
    fields were given since it was loaded, except [updated_at], which
    [auto_now] sets to [now].  ([auto_now_add] only acts when the row is
    added.) *)
Definition save (now : Z) (b : t) : t :=
  mk (state b) (created_at b) now (deleted_at b).

Definition set_state (v : string) (b : t) : t :=
  mk v (created_at b) (updated_at b) (deleted_at b).

Definition set_deleted_at (v : option Z) (b : t) : t :=
  mk (state b) (created_at b) (updated_at b) v.
End BaseModel.

Module Category.
Record t := mk { id : Z; base : BaseModel.t; name : string }.

Definition create (now id : Z) (name : string) (state : option string) : t :=
  mk id (BaseModel.create now state) name.

Definition attrs : list string :=
  ["id"; "state"; "created_at"; "updated_at"; "deleted_at"; "name"; "devices"].

Definition set_base (b : BaseModel.t) (c : t) : t := mk (id c) b (name c).
End Category.

Module Organization.
Record t := mk { id : Z; base : BaseModel.t; name : string; email : string }.

Definition create (now id : Z) (name email : string) (state : option string) : t :=
  mk id (BaseModel.create now state) name email.

Definition attrs : list string :=
  ["id"; "state"; "created_at"; "updated_at"; "deleted_at"; "name"; "email";
   "devices"; "userprofile_set"].

Definition set_base (b : BaseModel.t) (o : t) : t := mk (id o) b (name o) (email o).
End Organization.

Module Zone.
Record t := mk { id : Z; base : BaseModel.t; name : string }.

Definition create (now id : Z) (name : string) (state : option string) : t :=
  mk id (BaseModel.create now state) name.

Definition attrs : list string :=
  ["id"; "state"; "created_at"; "updated_at"; "deleted_at"; "name"; "devices"].

Definition set_base (b : BaseModel.t) (z : t) : t := mk (id z) b (name z).
End Zone.

Module Device.
Record t := mk {
  id : Z;
  base : BaseModel.t;
  name : string;
  category : Z;
  zone : Z;
  max_usage : Z;
  organization : Z
}.

Definition create (now id : Z) (name : string) (category zone max_usage organization : Z)
    (state : option string) : t :=
  mk id (BaseModel.create now state) name category zone max_usage organization.

Definition attrs : list string :=
  ["id"; "state"; "created_at"; "updated_at"; "deleted_at"; "name"; "category";
   "zone"; "max_usage"; "organization"; "measurements"; "alerts"].

Definition set_base (b : BaseModel.t) (d : t) : t :=
  mk (id d) b (name d) (category d) (zone d) (max_usage d) (organization d).
End Device.

Module Measurement.
Record t := mk { id : Z; base : BaseModel.t; device : Z; date : Z; usage : float }.

Definition create (now id device : Z) (usage : float) (state : option string) : t :=
  mk id (BaseModel.create now state) device now usage.

Definition attrs : list string :=
  ["id"; "state"; "created_at"; "updated_at"; "deleted_at"; "device"; "date"; "usage"].

Definition set_base (b : BaseModel.t) (m : t) : t :=
  mk (id m) b (device m) (date m) (usage m).
End Measurement.

Module Alert.
Definition LEVELS : list string := ["CRITICAL"; "HIGH"; "MEDIUM"; "LOW"].

Record t := mk {
  id : Z;
  base : BaseModel.t;
  device : Z;
  message : string;
  date : Z;
  level : string;
  is_resolved : bool
}.

Definition create (now id device : Z) (message : string)
    (level : option string) (is_resolved : option bool) (state : option string) : t :=
  mk id (BaseModel.create now state) device message now
     (kwarg "MEDIUM" level) (kwarg false is_resolved).

Definition attrs : list string :=
  ["id"; "state"; "created_at"; "updated_at"; "deleted_at"; "device"; "message";
   "date"; "level"; "is_resolved"].

Definition set_base (b : BaseModel.t) (a : t) : t :=
  mk (id a) b (device a) (message a) (date a) (level a) (is_resolved a).

Definition set_is_resolved (v : bool) (a : t) : t :=
  mk (id a) (base a) (device a) (message a) (date a) (level a) v.
End Alert.

(** [django.contrib.auth.models.User], as far as the code reads it.
    [is_authenticated] is false for the anonymous user only. *)
Module User.
Record t := mk { id : Z; username : string; is_superuser : bool; is_authenticated : bool }.
End User.

Module UserProfile.
Record t := mk {
  id : Z;
  base : BaseModel.t;
  user : User.t;
  organization : option Z;
  role : string;
  phone : string
}.

Definition create (now id : Z) (user : User.t) (organization : option Z)
    (role : option string) (phone : option string) (state : option string) : t :=
  mk id (BaseModel.create now state) user organization
     (kwarg "VIEWER" role) (kwarg "" phone).

Definition attrs : list string :=
  ["id"; "state"; "created_at"; "updated_at"; "deleted_at"; "user"; "organization";
   "role"; "phone"].

Definition set_base (b : BaseModel.t) (p : t) : t :=
  mk (id p) b (user p) (organization p) (role p) (phone p).

Definition set_role (v : string) (p : t) : t :=
  mk (id p) (base p) (user p) (organization p) v (phone p).

Definition has_organization_access (self : t) (organization : option Z) : bool :=
  if User.is_superuser (user self) then true
  else fk_eq (UserProfile.organization self) organization.

Definition can_edit_devices (self : t) : bool :=
  str_in (role self) ["ADMIN"; "OPERATOR"; "MANAGER"].

Definition can_view_all_organizations (self : t) : bool :=
  User.is_superuser (user self) || (role self =? "ADMIN")%string.
End UserProfile.

(** ** The database and the querysets *)

Module DB.
Record t := mk {
  categories : list Category.t;
  organizations : list Organization.t;
  zones : list Zone.t;
  devices : list Device.t;
  measurements : list Measurement.t;
  alerts : list Alert.t;
  profiles : list UserProfile.t
}.

Definition set_categories (v : list Category.t) (db : t) : t :=
  mk v (organizations db) (zones db) (devices db) (measurements db) (alerts db)
     (profiles db).

Definition set_organizations (v : list Organization.t) (db : t) : t :=
  mk (categories db) v (zones db) (devices db) (measurements db) (alerts db)
     (profiles db).

Definition set_zones (v : list Zone.t) (db : t) : t :=
  mk (categories db) (organizations db) v (devices db) (measurements db) (alerts db)
     (profiles db).

Definition set_devices (v : list Device.t) (db : t) : t :=
  mk (categories db) (organizations db) (zones db) v (measurements db) (alerts db)
     (profiles db).

Definition set_measurements (v : list Measurement.t) (db : t) : t :=
  mk (categories db) (organizations db) (zones db) (devices db) v (alerts db)
     (profiles db).

Definition set_alerts (v : list Alert.t) (db : t) : t :=
  mk (categories db) (organizations db) (zones db) (devices db) (measurements db) v
     (profiles db).

Definition set_profiles (v : list UserProfile.t) (db : t) : t :=
  mk (categories db) (organizations db) (zones db) (devices db) (measurements db)
     (alerts db) v.

(** The row a foreign key [device] points to. *)
Definition get_device (db : t) (pk : Z) : option Device.t :=
  find (fun d => Device.id d =? pk) (devices db).
End DB.

(** What the admin needs of a model class: its table, the attributes the
    class has ([hasattr(self.model, ...)]) and the two columns the
    organization filter looks up. *)
Class Model (R : Type) := {
  objects : DB.t -> list R;
  set_objects : list R -> DB.t -> DB.t;
  pk : R -> Z;
  base : R -> BaseModel.t;
  set_base : BaseModel.t -> R -> R;
  model_attrs : list string;
  organization_id : R -> option Z;
  device_id : R -> option Z
}.

Definition hasattr (R : Type) `{Model R} (name : string) : bool :=
  str_in name model_attrs.

#[export] Instance Category_Model : Model Category.t := {|
  objects := DB.categories; set_objects := DB.set_categories;
  pk := Category.id; base := Category.base;
  set_base := Category.set_base; model_attrs := Category.attrs;
  organization_id := fun _ => None; device_id := fun _ => None |}.

#[export] Instance Organization_Model : Model Organization.t := {|
  objects := DB.organizations; set_objects := DB.set_organizations;
  pk := Organization.id; base := Organization.base;
  set_base := Organization.set_base; model_attrs := Organization.attrs;
  organization_id := fun _ => None; device_id := fun _ => None |}.

#[export] Instance Zone_Model : Model Zone.t := {|
  objects := DB.zones; set_objects := DB.set_zones;
  pk := Zone.id; base := Zone.base;
  set_base := Zone.set_base; model_attrs := Zone.attrs;
  organization_id := fun _ => None; device_id := fun _ => None |}.

#[export] Instance Device_Model : Model Device.t := {|
  objects := DB.devices; set_objects := DB.set_devices;
  pk := Device.id; base := Device.base;
  set_base := Device.set_base; model_attrs := Device.attrs;
  organization_id := fun d => Some (Device.organization d); device_id := fun _ => None |}.

#[export] Instance Measurement_Model : Model Measurement.t := {|
  objects := DB.measurements; set_objects := DB.set_measurements;
  pk := Measurement.id; base := Measurement.base;
  set_base := Measurement.set_base; model_attrs := Measurement.attrs;
  organization_id := fun _ => None; device_id := fun m => Some (Measurement.device m) |}.

#[export] Instance Alert_Model : Model Alert.t := {|
  objects := DB.alerts; set_objects := DB.set_alerts;
  pk := Alert.id; base := Alert.base;
  set_base := Alert.set_base; model_attrs := Alert.attrs;
  organization_id := fun _ => None; device_id := fun a => Some (Alert.device a) |}.

#[export] Instance UserProfile_Model : Model UserProfile.t := {|
  objects := DB.profiles; set_objects := DB.set_profiles;
  pk := UserProfile.id; base := UserProfile.base;
  set_base := UserProfile.set_base; model_attrs := UserProfile.attrs;
  organization_id := UserProfile.organization; device_id := fun _ => None |}.

Module QuerySet.
(** The query of a queryset over the table of [R]. *)
Definition t (R : Type) : Type := DB.t -> R -> bool.

Section Ops.
Context {R : Type} `{Model R}.

Definition all : t R := fun _ _ => true.

Definition none (qs : t R) : t R := fun _ _ => false.

(** [qs.filter(organization=org)] *)
Definition filter_organization (org : Z) (qs : t R) : t R :=
  fun db r => qs db r && fk_eq (organization_id r) (Some org).

(** [qs.filter(device__organization=org)]: an inner join on the device *)
Definition filter_device__organization (org : Z) (qs : t R) : t R :=
  fun db r =>
    qs db r &&
    match device_id r with
    | Some d =>
        match DB.get_device db d with
        | Some dev => Device.organization dev =? org
        | None => false
        end
    | None => false
    end.

(** [qs.filter(pk__in=ids)] *)
Definition filter_pk__in (ids : list Z) (qs : t R) : t R :=
  fun db r => qs db r && existsb (Z.eqb (pk r)) ids.

(** The rows the query selects now. *)
Definition rows (db : DB.t) (qs : t R) : list R := filter (qs db) (objects db).

Definition count (db : DB.t) (qs : t R) : nat := List.length (rows db qs).

(** The table after [qs.update(...)], [set] being the assignment: one
    UPDATE statement over the selected rows.  Only the columns named in
    the call are written: no [save()] runs, so an [auto_now] column
    keeps its value. *)
Definition updated (db : DB.t) (qs : t R) (set : R -> R) : list R :=
  map (fun r => if qs db r then set r else r) (objects db).

(** [qs.update(...)]: the database after it and the number of rows the
    query matched. *)
Definition update (db : DB.t) (qs : t R) (set : R -> R) : DB.t * nat :=
  (set_objects (updated db qs set) db, count db qs).
End Ops.
End QuerySet.

(** The reverse accessors [obj.devices] ([related_name='devices']): the
    devices whose foreign key points to [obj]. *)
Module related.
Definition Category_devices (obj : Category.t) : QuerySet.t Device.t :=
  fun _ d => Device.category d =? Category.id obj.

Definition Zone_devices (obj : Zone.t) : QuerySet.t Device.t :=
  fun _ d => Device.zone d =? Zone.id obj.

Definition Organization_devices (obj : Organization.t) : QuerySet.t Device.t :=
  fun _ d => Device.organization d =? Organization.id obj.
End related.

(** ** admin.py *)

Module messages.
Inductive level := DEBUG | INFO | SUCCESS | WARNING | ERROR.
Record t := mk { lvl : level; text : string }.
End messages.

(** The request, as far as the admin reads it.  [profile] is what
    [request.user.profile] gives; it is [None] when the user has no profile
    row, where [hasattr(request.user, 'profile')] is false. *)
Module Request.
Record t := mk { user : User.t; profile : option UserProfile.t }.
End Request.

(** What an action can change: the database, and the messages shown to the
    operator. *)
Module Site.
Record t := mk { db : DB.t; shown : list messages.t }.
End Site.

(** The change list of an admin.  Its queryset is the admin's queryset with
    the filters of the URL applied: the lookups of [list_filter] and the
    words of the search box.  [filters] is that condition on a row; it may
    follow the row's foreign keys into the database.  [QuerySet.all] stands
    for a URL without filters. *)
Module ChangeList.
Definition get_queryset {R : Type} `{Model R} (root_queryset filters : QuerySet.t R)
    : QuerySet.t R :=
  fun db r => root_queryset db r && filters db r.
End ChangeList.

Module ModelAdmin.
(** The framework's default, the default manager's queryset.  No model of
    the code declares a manager of its own, so this is every row of the
    model's table. *)
Definition get_queryset {R : Type} `{Model R} (request : Request.t) : QuerySet.t R :=
  QuerySet.all.

(** [level] defaults to [messages.INFO]. *)
Definition message_user (request : Request.t) (message : string)
    (level : option messages.level) (s : Site.t) : Site.t :=
  Site.mk (Site.db s) (Site.shown s ++ [messages.mk (kwarg messages.INFO level) message]).

(** The text shown when an action is asked for and nothing is ticked (the
    framework's, before translation). *)
Definition no_selection : string :=
  "Items must be selected in order to perform actions on them. No items have been changed.".

(** The queryset an action is called with: the queryset of the change
    list, narrowed to the ticked rows unless the operator chose to select
    all rows across the pages. *)
Definition action_queryset {R : Type} `{Model R}
    (get_queryset : Request.t -> QuerySet.t R) (request : Request.t)
    (filters : QuerySet.t R) (select_across : bool) (selected : list Z) : QuerySet.t R :=
  let queryset := ChangeList.get_queryset (get_queryset request) filters in
  if select_across then queryset else QuerySet.filter_pk__in selected queryset.

(** How the change list runs an action.  With nothing ticked and no
    selection across pages the action is not called, and a warning is
    shown. *)
Definition response_action {R : Type} `{Model R}
    (get_queryset : Request.t -> QuerySet.t R)
    (func : Request.t -> QuerySet.t R -> Site.t -> Site.t)
    (request : Request.t) (filters : QuerySet.t R) (select_across : bool)
    (selected : list Z) (s : Site.t) : Site.t :=
  match selected, select_across with
  | [], false => message_user request no_selection (Some messages.WARNING) s
  | _, _ =>
      func request (action_queryset get_queryset request filters select_across selected) s
  end.

(** The rows a request for an action can write: those of the queryset the
    action is called with, none when the action is not called. *)
Definition acted_on {R : Type} `{Model R}
    (get_queryset : Request.t -> QuerySet.t R) (request : Request.t)
    (filters : QuerySet.t R) (select_across : bool) (selected : list Z) : QuerySet.t R :=
  match selected, select_across with
  | [], false => fun _ _ => false
  | _, _ => action_queryset get_queryset request filters select_across selected
  end.
End ModelAdmin.

Module BaseModelAdmin.
Definition exclude : list string := ["deleted_at"].
Definition readonly_fields : list string := ["created_at"; "updated_at"].

Definition get_queryset {R : Type} `{Model R} : Request.t -> QuerySet.t R :=
  ModelAdmin.get_queryset.
End BaseModelAdmin.

Module OrganizationFilteredAdmin.
Definition get_queryset (R : Type) `{Model R} (request : Request.t) : QuerySet.t R :=
  let qs := BaseModelAdmin.get_queryset request in
  if negb (User.is_superuser (Request.user request)) then
    match
      match Request.profile request with
      | Some profile => UserProfile.organization profile
      | None => None
      end
    with
    | Some user_org =>
        if hasattr R "organization" then
          QuerySet.filter_organization user_org qs
        else if hasattr R "device" then
          QuerySet.filter_device__organization user_org qs
        else
          QuerySet.none qs
    | None => QuerySet.none qs
    end
  else qs.
End OrganizationFilteredAdmin.

Module MasterDataAdmin.
Definition get_queryset {R : Type} `{Model R} : Request.t -> QuerySet.t R :=
  BaseModelAdmin.get_queryset.
End MasterDataAdmin.

Module CategoryAdmin.
Definition get_queryset : Request.t -> QuerySet.t Category.t :=
  MasterDataAdmin.get_queryset.

(** [changelist] is [reverse('admin:dispositivos_device_changelist')], which
    the URL configuration decides. *)
Definition device_count (changelist : string) (db : DB.t) (obj : Category.t) : string :=
  let count := QuerySet.count db (related.Category_devices obj) in
  if (0 <? count)%nat then
    let url := changelist ++ "?category__id__exact=" ++ str_int (Category.id obj) in
    "<a href=" ++ String dquote (escape url) ++ String dquote ">"
      ++ escape (str count) ++ " dispositivos</a>"
  else "0 dispositivos".
End CategoryAdmin.

Module ZoneAdmin.
Definition get_queryset : Request.t -> QuerySet.t Zone.t :=
  MasterDataAdmin.get_queryset.

(** [changelist] is [reverse('admin:dispositivos_device_changelist')], which
    the URL configuration decides. *)
Definition device_count (changelist : string) (db : DB.t) (obj : Zone.t) : string :=
  let count := QuerySet.count db (related.Zone_devices obj) in
  if (0 <? count)%nat then
    let url := changelist ++ "?zone__id__exact=" ++ str_int (Zone.id obj) in
    "<a href=" ++ String dquote (escape url) ++ String dquote ">"
      ++ escape (str count) ++ " dispositivos</a>"
  else "0 dispositivos".
End ZoneAdmin.

Module OrganizationAdmin.
Definition get_queryset : Request.t -> QuerySet.t Organization.t :=
  MasterDataAdmin.get_queryset.

(** [changelist] is [reverse('admin:dispositivos_device_changelist')], which
    the URL configuration decides. *)
Definition device_count (changelist : string) (db : DB.t) (obj : Organization.t) : string :=
  let count := QuerySet.count db (related.Organization_devices obj) in
  if (0 <? count)%nat then
    let url := changelist ++ "?organization__id__exact=" ++ str_int (Organization.id obj) in
    "<a href=" ++ String dquote (escape url) ++ String dquote ">"
      ++ escape (str count) ++ " dispositivos</a>"
  else "0 dispositivos".
End OrganizationAdmin.

Module MeasurementFormSet.
(** The two keys of [form.cleaned_data] that [clean] reads; a key that is
    not in the dictionary is [None]. *)
Record cleaned := mk_cleaned { usage : option float; DELETE : option bool }.

(** A form of the formset: whether its error dictionary has entries, and
    its [cleaned_data], [None] standing for the empty dictionary. *)
Record form := mk_form { errors : bool; cleaned_data : option cleaned }.





End MeasurementFormSet.

Module DeviceAdmin.
Definition get_queryset : Request.t -> QuerySet.t Device.t :=
  OrganizationFilteredAdmin.get_queryset Device.t.

Definition actions : list string :=
  ["mark_as_active"; "mark_as_inactive"; "generate_usage_report"].

Definition list_filter : list string :=
  ["state"; "category"; "zone"; "organization"; "created_at"].

Definition set_state (v : string) (d : Device.t) : Device.t :=
  Device.set_base (BaseModel.set_state v (Device.base d)) d.

(** The lookup [?state__exact=v] of the list filter on [state]. *)
Definition state__exact (v : string) : QuerySet.t Device.t :=
  fun _ d => (BaseModel.state (Device.base d) =? v)%string.

(** Filters that do not read the state: they give the same answer for a
    device whatever its state and whatever the other rows of the table of
    devices.  The lookups on category, zone, organization and created_at and
    the search box are of this kind; [state__exact] is not. *)
Definition ignores_state (filters : QuerySet.t Device.t) : Prop :=
  forall (db : DB.t) (l : list Device.t) (v : string) (d : Device.t),
    filters (DB.set_devices l db) (set_state v d) = filters db d.

(** The fields of the change form: those of [fieldsets] that are not in
    [readonly_fields].  [deleted_at] is excluded from every form. *)
Record form := mk_form {
  form_name : string;
  form_organization : Z;
  form_category : Z;
  form_zone : Z;
  form_max_usage : Z;
  form_state : string
}.

(** Saving a valid change form at time [now]: the values of the form are
    set on the instance, which is then saved. *)
Definition save_form (now : Z) (f : form) (obj : Device.t) : Device.t :=
  Device.mk (Device.id obj)
    (BaseModel.save now (BaseModel.set_state (form_state f) (Device.base obj)))
    (form_name f) (form_category f) (form_zone f) (form_max_usage f)
    (form_organization f).

Definition mark_as_active (request : Request.t) (queryset : QuerySet.t Device.t)
    (s : Site.t) : Site.t :=
  let (db, updated) := QuerySet.update (Site.db s) queryset (set_state "ACTIVE") in
  ModelAdmin.message_user request
    (str updated ++ " dispositivos marcados como activos.") None
    (Site.mk db (Site.shown s)).

Definition mark_as_inactive (request : Request.t) (queryset : QuerySet.t Device.t)
    (s : Site.t) : Site.t :=
  let (db, updated) := QuerySet.update (Site.db s) queryset (set_state "INACTIVE") in
  ModelAdmin.message_user request
    (str updated ++ " dispositivos marcados como inactivos.") None
    (Site.mk db (Site.shown s)).

Definition generate_usage_report (request : Request.t) (queryset : QuerySet.t Device.t)
    (s : Site.t) : Site.t :=
  if (10 <? QuerySet.count (Site.db s) queryset)%nat then
    ModelAdmin.message_user request
      "Solo se pueden generar reportes para máximo 10 dispositivos."
      (Some messages.WARNING) s
  else
    ModelAdmin.message_user request
      ("Reporte generado para " ++ str (QuerySet.count (Site.db s) queryset)
         ++ " dispositivos.") None s.
End DeviceAdmin.

Module MeasurementAdmin.
Definition get_queryset : Request.t -> QuerySet.t Measurement.t :=
  OrganizationFilteredAdmin.get_queryset Measurement.t.

Definition actions : list string := ["export_measurements"].

End MeasurementAdmin.

Module AlertAdmin.
Definition get_queryset : Request.t -> QuerySet.t Alert.t :=
  OrganizationFilteredAdmin.get_queryset Alert.t.

Definition actions : list string := ["mark_as_resolved"; "mark_as_unresolved"].

Definition list_filter : list string :=
  ["level"; "is_resolved"; "state"; "date"; "device__organization"; "created_at"].

(** The lookup [?is_resolved__exact=v] of the list filter on [is_resolved]. *)
Definition is_resolved__exact (v : bool) : QuerySet.t Alert.t :=
  fun _ a => Bool.eqb (Alert.is_resolved a) v.

(** Filters that do not read is_resolved: the same answer for an alert
    whatever its is_resolved and whatever the other rows of the table of
    alerts. *)
Definition ignores_is_resolved (filters : QuerySet.t Alert.t) : Prop :=
  forall (db : DB.t) (l : list Alert.t) (v : bool) (a : Alert.t),
    filters (DB.set_alerts l db) (Alert.set_is_resolved v a) = filters db a.

(** One element of a string stands for one character of the message. *)
Definition message_short (obj : Alert.t) : string :=
  if (50 <? String.length (Alert.message obj))%nat then
    substring 0 50 (Alert.message obj) ++ "..."
  else Alert.message obj.

Definition mark_as_resolved (request : Request.t) (queryset : QuerySet.t Alert.t)
    (s : Site.t) : Site.t :=
  let (db, updated) := QuerySet.update (Site.db s) queryset (Alert.set_is_resolved true) in
  ModelAdmin.message_user request
    (str updated ++ " alertas marcadas como resueltas.") None
    (Site.mk db (Site.shown s)).

Definition mark_as_unresolved (request : Request.t) (queryset : QuerySet.t Alert.t)
    (s : Site.t) : Site.t :=
  let (db, updated) := QuerySet.update (Site.db s) queryset (Alert.set_is_resolved false) in
  ModelAdmin.message_user request
    (str updated ++ " alertas marcadas como no resueltas.") None
    (Site.mk db (Site.shown s)).
End AlertAdmin.

Module UserProfileAdmin.
Definition get_queryset : Request.t -> QuerySet.t UserProfile.t :=
  BaseModelAdmin.get_queryset.
End UserProfileAdmin.

(** ** middleware.py *)

Module OrganizationFilterMiddleware.
(** The value [process_request] stores in [request.user_organization]. *)
Definition process_request (request : Request.t) : option Z :=
  if User.is_authenticated (Request.user request)
     && negb (User.is_superuser (Request.user request))
  then
    match
      match Request.profile request with
      | Some profile => UserProfile.organization profile
      | None => None
      end
    with
    | Some organization => Some organization
    | None => None
    end
  else None.
End OrganizationFilterMiddleware.

(** ** The registered admins, by entity kind *)

Inductive EntityKind :=
| KCategory | KZone | KOrganization | KDevice | KMeasurement | KAlert | KUserProfile.

Definition row (k : EntityKind) : Type :=
  match k with
  | KCategory => Category.t
  | KZone => Zone.t
  | KOrganization => Organization.t
  | KDevice => Device.t
  | KMeasurement => Measurement.t
  | KAlert => Alert.t
  | KUserProfile => UserProfile.t
  end.

#[export] Instance row_Model (k : EntityKind) : Model (row k) :=
  match k return Model (row k) with
  | KCategory => Category_Model
  | KZone => Zone_Model
  | KOrganization => Organization_Model
  | KDevice => Device_Model
  | KMeasurement => Measurement_Model
  | KAlert => Alert_Model
  | KUserProfile => UserProfile_Model
  end.

(** [@admin.register(...)]: the queryset of the admin class registered for
    each model. *)
Definition registered_get_queryset (k : EntityKind) : Request.t -> QuerySet.t (row k) :=
  match k return Request.t -> QuerySet.t (row k) with
  | KCategory => CategoryAdmin.get_queryset
  | KZone => ZoneAdmin.get_queryset
  | KOrganization => OrganizationAdmin.get_queryset
  | KDevice => DeviceAdmin.get_queryset
  | KMeasurement => MeasurementAdmin.get_queryset
  | KAlert => AlertAdmin.get_queryset
  | KUserProfile => UserProfileAdmin.get_queryset
  end.

(** ** The scoping policy as the specification words it *)

Inductive Scoping := NONE | DIRECT | INDIRECT.

Definition scoping (k : EntityKind) : Scoping :=
  match k with
  | KDevice => DIRECT
  | KMeasurement | KAlert => INDIRECT
  | KCategory | KZone | KOrganization | KUserProfile => NONE
  end.

(** [principal.profile.organization], null also when there is no profile *)
Definition principal_organization (principal : Request.t) : option Z :=
  match Request.profile principal with
  | Some profile => UserProfile.organization profile
  | None => None
  end.

(** [record.organization == org] *)
Definition direct_match {R : Type} `{Model R} (org : Z) (record : R) : bool :=
  fk_eq (organization_id record) (Some org).

(** [record.device.organization == org] *)
Definition indirect_match {R : Type} `{Model R} (org : Z) (db : DB.t) (record : R) : bool :=
  match device_id record with
  | Some d =>
      match DB.get_device db d with
      | Some dev => Device.organization dev =? org
      | None => false
      end
  | None => false
  end.

(** The reference algorithm, step by step as in the specification:
    global admin first, then the missing organization, then the kind. *)
Definition spec_visible_scope (principal : Request.t) (k : EntityKind) : QuerySet.t (row k) :=
  fun db record =>
    if User.is_superuser (Request.user principal) then true
    else
      match principal_organization principal with
      | None => false
      | Some org =>
          match scoping k with
          | DIRECT => direct_match org record
          | INDIRECT => indirect_match org db record
          | NONE => true
          end
      end.

(** The same, with the kind looked at first: master data is not scoped. *)
Definition kind_first_visible_scope (principal : Request.t) (k : EntityKind)
    : QuerySet.t (row k) :=
  fun db record =>
    match scoping k with
    | NONE => true
    | DIRECT =>
        if User.is_superuser (Request.user principal) then true
        else
          match principal_organization principal with
          | None => false
          | Some org => direct_match org record
          end
    | INDIRECT =>
        if User.is_superuser (Request.user principal) then true
        else
          match principal_organization principal with
          | None => false
          | Some org => indirect_match org db record
          end
    end.

(** ** The bulk actions, as the change list runs them *)

Inductive BulkAction :=
| mark_as_active | mark_as_inactive | mark_as_resolved | mark_as_unresolved.

(** The model a bulk action works on: [actions] of [DeviceAdmin] and of
    [AlertAdmin]. *)
Definition action_kind (action : BulkAction) : EntityKind :=
  match action with
  | mark_as_active | mark_as_inactive => KDevice
  | mark_as_resolved | mark_as_unresolved => KAlert
  end.

(** A bulk action asked for on the change list of its model, with the
    filters of the URL, the ticked ids and the choice to select across
    pages. *)
Definition execute_action (action : BulkAction) (request : Request.t)
    : QuerySet.t (row (action_kind action)) -> bool -> list Z -> Site.t -> Site.t :=
  match action with
  | mark_as_active =>
      ModelAdmin.response_action DeviceAdmin.get_queryset DeviceAdmin.mark_as_active
        request
  | mark_as_inactive =>
      ModelAdmin.response_action DeviceAdmin.get_queryset DeviceAdmin.mark_as_inactive
        request
  | mark_as_resolved =>
      ModelAdmin.response_action AlertAdmin.get_queryset AlertAdmin.mark_as_resolved
        request
  | mark_as_unresolved =>
      ModelAdmin.response_action AlertAdmin.get_queryset AlertAdmin.mark_as_unresolved
        request
  end.

(** What "applying [func] twice gives the same state and the same non-zero
    count" says of a device action run twice from the same change list on
    the same ticked ids: both runs report the count [n] of the first, [n] is
    not zero, the second run leaves the database of the first, and every
    selected device is in state [final]. *)
Definition same_state_and_count_twice
    (func : Request.t -> QuerySet.t Device.t -> Site.t -> Site.t)
    (final suffix : string) (request : Request.t) (filters : QuerySet.t Device.t)
    (selected : list Z) (s : Site.t) : Prop :=
  let queryset :=
    ModelAdmin.action_queryset DeviceAdmin.get_queryset request filters false selected in
  let n := QuerySet.count (Site.db s) queryset in
  let s1 :=
    ModelAdmin.response_action DeviceAdmin.get_queryset func request filters false
      selected s in
  let s2 :=
    ModelAdmin.response_action DeviceAdmin.get_queryset func request filters false
      selected s1 in
  (0 < n)%nat
  /\ Site.shown s1 = (Site.shown s ++ [messages.mk messages.INFO (str n ++ suffix)])%list
  /\ Site.shown s2 = (Site.shown s1 ++ [messages.mk messages.INFO (str n ++ suffix)])%list
  /\ Site.db s2 = Site.db s1
  /\ (forall d, In d (QuerySet.rows (Site.db s1) queryset) ->
               BaseModel.state (Device.base d) = final).

(** ** A small site: two organizations, one device each *)

Module Scenario.
Definition base (state : string) : BaseModel.t := BaseModel.mk state 1 1 None.

Definition A : Organization.t := Organization.mk 1 (base "ACTIVE") "A" "a@example.org".
Definition B : Organization.t := Organization.mk 2 (base "ACTIVE") "B" "b@example.org".
Definition cat : Category.t := Category.mk 1 (base "ACTIVE") "Lighting".
Definition zone : Zone.t := Zone.mk 1 (base "ACTIVE") "Hall".
Definition D1 : Device.t := Device.mk 1 (base "INACTIVE") "D1" 1 1 100 1.
Definition D2 : Device.t := Device.mk 2 (base "INACTIVE") "D2" 1 1 100 2.
Definition M1 : Measurement.t := Measurement.mk 1 (base "ACTIVE") 1 1 1%float.
Definition M2 : Measurement.t := Measurement.mk 2 (base "ACTIVE") 2 1 2%float.
Definition A1 : Alert.t := Alert.mk 1 (base "ACTIVE") 1 "over" 1 "HIGH" false.
Definition A2 : Alert.t := Alert.mk 2 (base "ACTIVE") 2 "over" 1 "LOW" false.

Definition user (id : Z) (name : string) : User.t := User.mk id name false true.
Definition root : User.t := User.mk 9 "root" true true.

Definition profile (id : Z) (name : string) (org : option Z) (role : string)
    : UserProfile.t :=
  UserProfile.mk id (base "ACTIVE") (user id name) org role "".

(** P: VIEWER of A.  Q: OPERATOR of A.  N: a profile without organization.
    Nobody: a user without profile.  Root: a superuser. *)
Definition P : Request.t := Request.mk (user 1 "p") (Some (profile 1 "p" (Some 1) "VIEWER")).
Definition Q : Request.t := Request.mk (user 2 "q") (Some (profile 2 "q" (Some 1) "OPERATOR")).
Definition N : Request.t := Request.mk (user 3 "n") (Some (profile 3 "n" None "VIEWER")).
Definition Nobody : Request.t := Request.mk (user 4 "x") None.
Definition Root : Request.t := Request.mk root None.

Definition db : DB.t :=
  DB.mk [cat] [A; B] [zone] [D1; D2] [M1; M2] [A1; A2]
    [profile 1 "p" (Some 1) "VIEWER"; profile 2 "q" (Some 1) "OPERATOR";
     profile 3 "n" None "VIEWER"].

Definition site : Site.t := Site.mk db [].

(** R: OPERATOR of B. *)
Definition R : Request.t := Request.mk (user 5 "r") (Some (profile 5 "r" (Some 2) "OPERATOR")).

(** D1 with a deletion date, in place of D1. *)
Definition D1_deleted : Device.t :=
  Device.set_base (BaseModel.set_deleted_at (Some 5) (Device.base D1)) D1.

Definition db_deleted : DB.t := DB.set_devices [D1_deleted; D2] db.

(** A site where organization A has the devices 1 .. n. *)
Definition fleet (n : nat) : list Device.t :=
  map (fun i => Device.mk (Z.of_nat i) (base "ACTIVE") ("D" ++ str i) 1 1 100 1)
      (seq 1 n).

Definition fleet_site (n : nat) : Site.t := Site.mk (DB.set_devices (fleet n) db) [].

Definition fleet_ids (n : nat) : list Z := map Z.of_nat (seq 1 n).
End Scenario.

(** * Properties *)

(** ** The visible scope *)

(** C1, as stated, fails: for a user without profile the reference
    algorithm of the specification gives an empty scope on categories, the
    registered admin shows every category. *)
Lemma C1_reference_algorithm_differs_on_master_data :
  QuerySet.rows Scenario.db (registered_get_queryset KCategory Scenario.Nobody)
    = [Scenario.cat]
  /\ QuerySet.rows Scenario.db (spec_visible_scope Scenario.Nobody KCategory) = [].
Proof. split; reflexivity. Qed.

(** The registered querysets, kind by kind. *)
Lemma registered_scope_by_kind (principal : Request.t) (k : EntityKind) (db : DB.t)
    (record : row k) :
  registered_get_queryset k principal db record
  = kind_first_visible_scope principal k db record.
Proof.
  destruct principal as [u p].
  unfold kind_first_visible_scope, principal_organization.
  destruct k; cbn [scoping registered_get_queryset]; try reflexivity;
    unfold DeviceAdmin.get_queryset, MeasurementAdmin.get_queryset,
      AlertAdmin.get_queryset, OrganizationFilteredAdmin.get_queryset;
    cbn [Request.user Request.profile];
    destruct (User.is_superuser u); cbn [negb]; try reflexivity;
    destruct p as [p|]; try reflexivity;
    destruct (UserProfile.organization p); reflexivity.
Qed.

(** C1, amended: for every principal and entity kind the visible scope is
    unrestricted for the NONE kinds whoever asks; for Device, Measurement and
    Alert it is unrestricted for a superuser, empty without a profile or
    without an organization, and otherwise the records whose organization
    (DIRECT) or whose device's organization (INDIRECT) is the principal's. *)
Theorem C1_visible_scope_kind_first :
  forall (principal : Request.t) (k : EntityKind) (db : DB.t) (record : row k),
    registered_get_queryset k principal db record
    = kind_first_visible_scope principal k db record.
Proof. intros. apply registered_scope_by_kind. Qed.

(** Rows a query never selects. *)
Lemma filter_nothing {A : Type} (f : A -> bool) (l : list A) :
  (forall x, In x l -> f x = false) -> filter f l = [].
Proof.
  induction l as [|x l IH]; intros Hf; cbn; [reflexivity|].
  rewrite (Hf x (or_introl eq_refl)). apply IH.
  intros y Hy. apply Hf. now right.
Qed.

(** The filtered admin never shows anything to a user that is not a
    superuser and has no organization, whatever the model. *)
Lemma filtered_admin_fail_closed (R : Type) `{Model R} (request : Request.t)
    (db : DB.t) (r : R) :
  User.is_superuser (Request.user request) = false ->
  principal_organization request = None ->
  OrganizationFilteredAdmin.get_queryset R request db r = false.
Proof.
  unfold OrganizationFilteredAdmin.get_queryset, principal_organization.
  intros -> ->. reflexivity.
Qed.

(** C2: a principal that is not a superuser and has no profile, or a
    profile without organization, sees no Device, Measurement or Alert. *)
Theorem C2_fail_closed :
  forall (principal : Request.t) (k : EntityKind) (db : DB.t),
    User.is_superuser (Request.user principal) = false ->
    (Request.profile principal = None
     \/ exists p, Request.profile principal = Some p
                  /\ UserProfile.organization p = None) ->
    scoping k <> NONE ->
    QuerySet.rows db (registered_get_queryset k principal) = [].
Proof.
  intros principal k db Hsu Horg Hk.
  assert (Hnone : principal_organization principal = None).
  { unfold principal_organization.
    destruct Horg as [-> | (p & -> & Hp)]; [reflexivity | exact Hp]. }
  apply filter_nothing. intros r _.
  destruct k; cbn in Hk; try congruence;
    now apply filtered_admin_fail_closed.
Qed.

Lemma C2_fail_closed_witness :
  QuerySet.rows Scenario.db (registered_get_queryset KDevice Scenario.Nobody) = []
  /\ QuerySet.rows Scenario.db (registered_get_queryset KAlert Scenario.N) = [].
Proof.
  split.
  - apply (C2_fail_closed Scenario.Nobody KDevice Scenario.db).
    + reflexivity.
    + left. reflexivity.
    + discriminate.
  - apply (C2_fail_closed Scenario.N KAlert Scenario.db).
    + reflexivity.
    + right. eexists. split; reflexivity.
    + discriminate.
Defined.

(** ** Bulk actions *)

(** A row the query does not select is at its place, unchanged, after the
    update. *)
Lemma updated_keeps_unselected {R : Type} `{Model R} (db : DB.t) (qs : QuerySet.t R)
    (set : R -> R) (i : nat) (r : R) :
  nth_error (objects db) i = Some r ->
  qs db r = false ->
  nth_error (QuerySet.updated db qs set) i = Some r.
Proof.
  intros Hi Hr. unfold QuerySet.updated.
  rewrite nth_error_map, Hi. cbn. now rewrite Hr.
Qed.

(** Narrowing to the ticked rows selects nothing outside the queryset. *)
Lemma filter_pk__in_outside {R : Type} `{Model R} (ids : list Z) (qs : QuerySet.t R)
    (db : DB.t) (r : R) :
  qs db r = false -> QuerySet.filter_pk__in ids qs db r = false.
Proof. intros Hr. unfold QuerySet.filter_pk__in. now rewrite Hr. Qed.

(** Whatever the filters and the ticks, an action writes no row outside
    the admin's queryset. *)
Lemma acted_on_outside {R : Type} `{Model R} (get_queryset : Request.t -> QuerySet.t R)
    (request : Request.t) (filters : QuerySet.t R) (select_across : bool)
    (selected : list Z) (db : DB.t) (r : R) :
  get_queryset request db r = false ->
  ModelAdmin.acted_on get_queryset request filters select_across selected db r = false.
Proof.
  intros Hr.
  assert (Hq : ModelAdmin.action_queryset get_queryset request filters select_across
                 selected db r = false).
  { unfold ModelAdmin.action_queryset, ChangeList.get_queryset.
    destruct select_across; [|apply filter_pk__in_outside]; now rewrite Hr. }
  unfold ModelAdmin.acted_on. destruct selected, select_across; auto.
Qed.

Lemma map_fixed {A : Type} (f : A -> A) (l : list A) :
  (forall x, In x l -> f x = x) -> map f l = l.
Proof.
  induction l as [|x l IH]; intros Hf; cbn; [reflexivity|].
  rewrite (Hf x (or_introl eq_refl)), IH; [reflexivity|].
  intros y Hy. apply Hf. now right.
Qed.

(** The database a device action leaves: the rows acted on get the state,
    the others are kept. *)
Lemma db_after_device_action
    (func : Request.t -> QuerySet.t Device.t -> Site.t -> Site.t) (v suffix : string) :
  (forall request queryset s,
      func request queryset s
      = Site.mk
          (DB.set_devices
             (QuerySet.updated (Site.db s) queryset (DeviceAdmin.set_state v))
             (Site.db s))
          (Site.shown s
           ++ [messages.mk messages.INFO
                 (str (QuerySet.count (Site.db s) queryset) ++ suffix)])) ->
  forall (request : Request.t) (filters : QuerySet.t Device.t) (select_across : bool)
         (selected : list Z) (s : Site.t),
    Site.db (ModelAdmin.response_action DeviceAdmin.get_queryset func request filters
               select_across selected s)
    = DB.set_devices
        (QuerySet.updated (Site.db s)
           (ModelAdmin.acted_on DeviceAdmin.get_queryset request filters select_across
              selected)
           (DeviceAdmin.set_state v))
        (Site.db s).
Proof.
  intros Hfunc request filters select_across selected s.
  unfold ModelAdmin.response_action, ModelAdmin.acted_on.
  destruct selected, select_across; rewrite ?Hfunc; try reflexivity.
  cbn [ModelAdmin.message_user Site.db]. unfold QuerySet.updated.
  rewrite map_fixed by reflexivity. now destruct (Site.db s).
Qed.

Lemma db_after_alert_action
    (func : Request.t -> QuerySet.t Alert.t -> Site.t -> Site.t) (v : bool)
    (suffix : string) :
  (forall request queryset s,
      func request queryset s
      = Site.mk
          (DB.set_alerts
             (QuerySet.updated (Site.db s) queryset (Alert.set_is_resolved v))
             (Site.db s))
          (Site.shown s
           ++ [messages.mk messages.INFO
                 (str (QuerySet.count (Site.db s) queryset) ++ suffix)])) ->
  forall (request : Request.t) (filters : QuerySet.t Alert.t) (select_across : bool)
         (selected : list Z) (s : Site.t),
    Site.db (ModelAdmin.response_action AlertAdmin.get_queryset func request filters
               select_across selected s)
    = DB.set_alerts
        (QuerySet.updated (Site.db s)
           (ModelAdmin.acted_on AlertAdmin.get_queryset request filters select_across
              selected)
           (Alert.set_is_resolved v))
        (Site.db s).
Proof.
  intros Hfunc request filters select_across selected s.
  unfold ModelAdmin.response_action, ModelAdmin.acted_on.
  destruct selected, select_across; rewrite ?Hfunc; try reflexivity.
  cbn [ModelAdmin.message_user Site.db]. unfold QuerySet.updated.
  rewrite map_fixed by reflexivity. now destruct (Site.db s).
Qed.

Lemma db_mark_as_active (request : Request.t) (filters : QuerySet.t Device.t)
    (select_across : bool) (selected : list Z) (s : Site.t) :
  Site.db (execute_action mark_as_active request filters select_across selected s)
  = DB.set_devices
      (QuerySet.updated (Site.db s)
         (ModelAdmin.acted_on DeviceAdmin.get_queryset request filters select_across
            selected)
         (DeviceAdmin.set_state "ACTIVE"))
      (Site.db s).
Proof.
  apply (db_after_device_action DeviceAdmin.mark_as_active "ACTIVE"
           " dispositivos marcados como activos.").
  reflexivity.
Qed.

Lemma db_mark_as_inactive (request : Request.t) (filters : QuerySet.t Device.t)
    (select_across : bool) (selected : list Z) (s : Site.t) :
  Site.db (execute_action mark_as_inactive request filters select_across selected s)
  = DB.set_devices
      (QuerySet.updated (Site.db s)
         (ModelAdmin.acted_on DeviceAdmin.get_queryset request filters select_across
            selected)
         (DeviceAdmin.set_state "INACTIVE"))
      (Site.db s).
Proof.
  apply (db_after_device_action DeviceAdmin.mark_as_inactive "INACTIVE"
           " dispositivos marcados como inactivos.").
  reflexivity.
Qed.

Lemma db_mark_as_resolved (request : Request.t) (filters : QuerySet.t Alert.t)
    (select_across : bool) (selected : list Z) (s : Site.t) :
  Site.db (execute_action mark_as_resolved request filters select_across selected s)
  = DB.set_alerts
      (QuerySet.updated (Site.db s)
         (ModelAdmin.acted_on AlertAdmin.get_queryset request filters select_across
            selected)
         (Alert.set_is_resolved true))
      (Site.db s).
Proof.
  apply (db_after_alert_action AlertAdmin.mark_as_resolved true
           " alertas marcadas como resueltas.").
  reflexivity.
Qed.

Lemma db_mark_as_unresolved (request : Request.t) (filters : QuerySet.t Alert.t)
    (select_across : bool) (selected : list Z) (s : Site.t) :
  Site.db (execute_action mark_as_unresolved request filters select_across selected s)
  = DB.set_alerts
      (QuerySet.updated (Site.db s)
         (ModelAdmin.acted_on AlertAdmin.get_queryset request filters select_across
            selected)
         (Alert.set_is_resolved false))
      (Site.db s).
Proof.
  apply (db_after_alert_action AlertAdmin.mark_as_unresolved false
           " alertas marcadas como no resueltas.").
  reflexivity.
Qed.

(** Rewrites the database after a bulk action, once the action is known. *)
Ltac db_after_action :=
  repeat first [ rewrite db_mark_as_active | rewrite db_mark_as_inactive
               | rewrite db_mark_as_resolved | rewrite db_mark_as_unresolved ].

(** C3: whatever the principal, the bulk action, the filters of the change
    list and the ids, a record outside the principal's visible scope is left
    as it was.  In the scenario, the VIEWER P of organization A lists D1
    only, and mark_as_active on D2's id leaves the devices as they were. *)
Theorem C3_out_of_scope_never_mutated :
  (forall (principal : Request.t) (action : BulkAction)
          (filters : QuerySet.t (row (action_kind action))) (select_across : bool)
          (selected : list Z) (s : Site.t) (k : EntityKind) (i : nat) (record : row k),
      nth_error (objects (Site.db s)) i = Some record ->
      registered_get_queryset k principal (Site.db s) record = false ->
      nth_error
        (objects
           (Site.db (execute_action action principal filters select_across selected s)))
        i
      = Some record)
  /\ QuerySet.rows Scenario.db (DeviceAdmin.get_queryset Scenario.P) = [Scenario.D1]
  /\ DB.devices
       (Site.db (execute_action mark_as_active Scenario.P QuerySet.all false
                   [Device.id Scenario.D2] Scenario.site))
     = [Scenario.D1; Scenario.D2].
Proof.
  split; [|split; reflexivity].
  intros principal action filters select_across selected s k i record Hi Hout.
  destruct action; db_after_action; destruct k; try exact Hi.
  all: refine (updated_keeps_unselected (Site.db s) _ _ i record Hi _).
  all: now apply acted_on_outside.
Qed.

Lemma C3_out_of_scope_never_mutated_witness :
  nth_error
    (DB.devices
       (Site.db (execute_action mark_as_active Scenario.P QuerySet.all false [2]
                   Scenario.site))) 1
  = Some Scenario.D2.
Proof.
  apply (proj1 C3_out_of_scope_never_mutated
           Scenario.P mark_as_active QuerySet.all false [2] Scenario.site KDevice 1%nat
           Scenario.D2).
  - reflexivity.
  - reflexivity.
Defined.

(** C6: generate_usage_report over more than 10 rows leaves a warning and
    nothing else (the database is as before); over 10 rows or fewer it leaves
    the message with the count. *)
Theorem C6_usage_report_cap :
  forall (request : Request.t) (queryset : QuerySet.t Device.t) (s : Site.t),
    let n := QuerySet.count (Site.db s) queryset in
    ((10 < n)%nat ->
     DeviceAdmin.generate_usage_report request queryset s
     = Site.mk (Site.db s)
         (Site.shown s
          ++ [messages.mk messages.WARNING
                "Solo se pueden generar reportes para máximo 10 dispositivos."]))
    /\ ((n <= 10)%nat ->
        DeviceAdmin.generate_usage_report request queryset s
        = Site.mk (Site.db s)
            (Site.shown s
             ++ [messages.mk messages.INFO
                   ("Reporte generado para " ++ str n ++ " dispositivos.")])).
Proof.
  intros request queryset s n. unfold DeviceAdmin.generate_usage_report.
  fold n. split; intros Hn.
  - apply Nat.ltb_lt in Hn. rewrite Hn. reflexivity.
  - apply Nat.ltb_ge in Hn. rewrite Hn. reflexivity.
Qed.

Lemma C6_usage_report_cap_witness :
  ModelAdmin.response_action DeviceAdmin.get_queryset DeviceAdmin.generate_usage_report
    Scenario.Q QuerySet.all false (Scenario.fleet_ids 11) (Scenario.fleet_site 11)
  = Site.mk (Site.db (Scenario.fleet_site 11))
      [messages.mk messages.WARNING
         "Solo se pueden generar reportes para máximo 10 dispositivos."]
  /\ ModelAdmin.response_action DeviceAdmin.get_queryset DeviceAdmin.generate_usage_report
       Scenario.Q QuerySet.all false (Scenario.fleet_ids 10) (Scenario.fleet_site 11)
     = Site.mk (Site.db (Scenario.fleet_site 11))
         [messages.mk messages.INFO "Reporte generado para 10 dispositivos."].
Proof.
  split.
  - assert (H := proj1 (C6_usage_report_cap Scenario.Q
                    (ModelAdmin.action_queryset DeviceAdmin.get_queryset Scenario.Q
                       QuerySet.all false (Scenario.fleet_ids 11))
                    (Scenario.fleet_site 11))).
    cbv zeta in H. exact (H ltac:(vm_compute; lia)).
  - assert (H := proj2 (C6_usage_report_cap Scenario.Q
                    (ModelAdmin.action_queryset DeviceAdmin.get_queryset Scenario.Q
                       QuerySet.all false (Scenario.fleet_ids 10))
                    (Scenario.fleet_site 11))).
    cbv zeta in H. exact (H ltac:(vm_compute; lia)).
Defined.

(** *** Applying a device action twice *)

(** The device queryset reads the organization column only: neither the
    state of the row nor the rest of the database. *)
Lemma device_scope_stable (request : Request.t) (db db' : DB.t) (d : Device.t)
    (b : BaseModel.t) :
  DeviceAdmin.get_queryset request db' (Device.set_base b d)
  = DeviceAdmin.get_queryset request db d.
Proof.
  unfold DeviceAdmin.get_queryset, OrganizationFilteredAdmin.get_queryset.
  destruct (User.is_superuser (Request.user request)); cbn [negb]; [reflexivity|].
  destruct (Request.profile request) as [p|]; [|reflexivity].
  destruct (UserProfile.organization p); reflexivity.
Qed.

Lemma set_state_same (d : Device.t) :
  DeviceAdmin.set_state (BaseModel.state (Device.base d)) d = d.
Proof. destruct d as [i [st c u del] n ca z m o]. reflexivity. Qed.

(** Under filters that do not read the state, the queryset of a device
    action selects a device whatever its state, before and after an update of
    the table of devices. *)
Lemma device_action_queryset_stable (request : Request.t)
    (filters : QuerySet.t Device.t) (select_across : bool) (selected : list Z) :
  DeviceAdmin.ignores_state filters ->
  forall (db : DB.t) (l : list Device.t) (v : string) (d : Device.t),
    ModelAdmin.action_queryset DeviceAdmin.get_queryset request filters select_across
      selected (DB.set_devices l db) (DeviceAdmin.set_state v d)
    = ModelAdmin.action_queryset DeviceAdmin.get_queryset request filters select_across
        selected db d.
Proof.
  intros Hf db l v d.
  cbv beta zeta delta [ModelAdmin.action_queryset ChangeList.get_queryset
                       QuerySet.filter_pk__in].
  assert (Hs : DeviceAdmin.get_queryset request (DB.set_devices l db)
                 (DeviceAdmin.set_state v d)
               = DeviceAdmin.get_queryset request db d)
    by apply device_scope_stable.
  destruct select_across; cbv beta; rewrite Hf, Hs; reflexivity.
Qed.

Lemma device_action_queryset_stable_db (request : Request.t)
    (filters : QuerySet.t Device.t) (select_across : bool) (selected : list Z) :
  DeviceAdmin.ignores_state filters ->
  forall (db : DB.t) (l : list Device.t) (d : Device.t),
    ModelAdmin.action_queryset DeviceAdmin.get_queryset request filters select_across
      selected (DB.set_devices l db) d
    = ModelAdmin.action_queryset DeviceAdmin.get_queryset request filters select_across
        selected db d.
Proof.
  intros Hf db l d.
  rewrite <- (device_action_queryset_stable request filters select_across selected Hf
                db l (BaseModel.state (Device.base d)) d).
  now rewrite set_state_same.
Qed.

Lemma set_devices_same (db : DB.t) : DB.set_devices (DB.devices db) db = db.
Proof. now destruct db. Qed.

Lemma device_action_queryset_stable_row (request : Request.t)
    (filters : QuerySet.t Device.t) (select_across : bool) (selected : list Z) :
  DeviceAdmin.ignores_state filters ->
  forall (db : DB.t) (v : string) (d : Device.t),
    ModelAdmin.action_queryset DeviceAdmin.get_queryset request filters select_across
      selected db (DeviceAdmin.set_state v d)
    = ModelAdmin.action_queryset DeviceAdmin.get_queryset request filters select_across
        selected db d.
Proof.
  intros Hf db v d.
  rewrite <- (set_devices_same db) at 1.
  now apply device_action_queryset_stable.
Qed.

Section UpdateTwice.
Variables (A : Type) (p p' : A -> bool) (set : A -> A).
Hypothesis p'_p : forall x, p' x = p x.
Hypothesis p_set : forall x, p (set x) = p x.
Hypothesis set_set : forall x, set (set x) = set x.

Lemma selected_after_update (l : list A) :
  filter p' (map (fun x => if p x then set x else x) l) = map set (filter p l).
Proof using p'_p p_set.
  induction l as [|x l IH]; [reflexivity|].
  cbn [map filter]. rewrite IH, p'_p.
  destruct (p x) eqn:Hx.
  - now rewrite p_set, Hx.
  - now rewrite Hx.
Qed.

Lemma update_again (l : list A) :
  map (fun x => if p' x then set x else x) (map (fun x => if p x then set x else x) l)
  = map (fun x => if p x then set x else x) l.
Proof using p'_p p_set set_set.
  rewrite map_map. apply map_ext. intros x.
  rewrite p'_p. destruct (p x) eqn:Hx.
  - now rewrite p_set, Hx, set_set.
  - now rewrite Hx.
Qed.
End UpdateTwice.

Lemma mark_twice (func : Request.t -> QuerySet.t Device.t -> Site.t -> Site.t)
    (final suffix : string) :
  (forall request queryset s,
      func request queryset s
      = Site.mk
          (DB.set_devices
             (QuerySet.updated (Site.db s) queryset (DeviceAdmin.set_state final))
             (Site.db s))
          (Site.shown s
           ++ [messages.mk messages.INFO
                 (str (QuerySet.count (Site.db s) queryset) ++ suffix)])) ->
  forall (request : Request.t) (filters : QuerySet.t Device.t) (selected : list Z)
         (s : Site.t),
    DeviceAdmin.ignores_state filters ->
    selected <> [] ->
    (forall id, In id selected ->
       exists d, In d (DB.devices (Site.db s)) /\ Device.id d = id
                 /\ ChangeList.get_queryset (DeviceAdmin.get_queryset request) filters
                      (Site.db s) d = true) ->
    same_state_and_count_twice func final suffix request filters selected s.
Proof.
  intros Hfunc request filters selected s Hf Hne Hin.
  unfold same_state_and_count_twice, ModelAdmin.response_action.
  set (qs := ModelAdmin.action_queryset DeviceAdmin.get_queryset request filters false
               selected).
  destruct selected as [|id0 ids]; [congruence|].
  rewrite !Hfunc. cbn [Site.db Site.shown].
  set (db := Site.db s).
  set (db1 := DB.set_devices _ db).
  assert (Hrows : QuerySet.rows db1 qs
                  = map (DeviceAdmin.set_state final) (QuerySet.rows db qs)).
  { unfold QuerySet.rows, db1, QuerySet.updated.
    cbn [objects Device_Model DB.set_devices DB.devices].
    apply selected_after_update.
    - intros x. now apply device_action_queryset_stable_db.
    - intros x. now apply device_action_queryset_stable_row. }
  assert (Hcount : QuerySet.count db1 qs = QuerySet.count db qs).
  { unfold QuerySet.count. now rewrite Hrows, length_map. }
  split; [|split; [|split; [|split]]].
  - destruct (Hin id0 (or_introl eq_refl)) as (d & Hd & Hid & Hlisted).
    unfold QuerySet.count, QuerySet.rows.
    assert (Hsel : In d (filter (qs db) (objects db))).
    { apply filter_In. split; [exact Hd|].
      unfold qs, ModelAdmin.action_queryset, QuerySet.filter_pk__in.
      fold db in Hlisted. rewrite Hlisted.
      cbn. rewrite Hid, Z.eqb_refl. reflexivity. }
    destruct (filter (qs db) (objects db)); [contradiction|cbn; lia].
  - reflexivity.
  - now rewrite Hcount.
  - unfold db1, QuerySet.updated, DB.set_devices.
    cbn [objects Device_Model DB.devices DB.categories
         DB.organizations DB.zones DB.measurements DB.alerts DB.profiles].
    f_equal. apply update_again.
    + intros x. now apply device_action_queryset_stable_db.
    + intros x. now apply device_action_queryset_stable_row.
    + intros x. now destruct x.
  - intros d Hd. rewrite Hrows in Hd. apply in_map_iff in Hd.
    destruct Hd as (d0 & <- & _). reflexivity.
Qed.

(** C7, as stated, fails: from a change list filtered on state INACTIVE
    (the list filter on state of the device admin), Q ticks D1, which is a
    device of Q's organization, and runs mark_as_active twice.  The first
    run counts 1, the second 0: D1 is ACTIVE by then and no longer in the
    filtered queryset.  The state is the same after both runs. *)
Lemma C7_second_count_zero_under_state_filter :
  DeviceAdmin.get_queryset Scenario.Q Scenario.db Scenario.D1 = true
  /\ Site.shown
       (execute_action mark_as_active Scenario.Q (DeviceAdmin.state__exact "INACTIVE")
          false [1]
          (execute_action mark_as_active Scenario.Q
             (DeviceAdmin.state__exact "INACTIVE") false [1] Scenario.site))
     = [messages.mk messages.INFO "1 dispositivos marcados como activos.";
        messages.mk messages.INFO "0 dispositivos marcados como activos."]
  /\ ~ same_state_and_count_twice DeviceAdmin.mark_as_active "ACTIVE"
         " dispositivos marcados como activos." Scenario.Q
         (DeviceAdmin.state__exact "INACTIVE") [1] Scenario.site.
Proof.
  split; [reflexivity|]. split; [reflexivity|].
  intros (_ & _ & H2 & _). vm_compute in H2. discriminate H2.
Qed.

(** C7, amended: run from a change list whose filters do not read the state,
    on a non-empty selection of devices listed there in the principal's
    scope, mark_as_active (mark_as_inactive) applied twice reports the same
    non-zero count both times and leaves the same state, every selected
    device ACTIVE (INACTIVE). *)
Theorem C7_mark_idempotent :
  forall (request : Request.t) (filters : QuerySet.t Device.t) (selected : list Z)
         (s : Site.t),
    DeviceAdmin.ignores_state filters ->
    selected <> [] ->
    (forall id, In id selected ->
       exists d, In d (DB.devices (Site.db s)) /\ Device.id d = id
                 /\ ChangeList.get_queryset (DeviceAdmin.get_queryset request) filters
                      (Site.db s) d = true) ->
    same_state_and_count_twice DeviceAdmin.mark_as_active "ACTIVE"
      " dispositivos marcados como activos." request filters selected s
    /\ same_state_and_count_twice DeviceAdmin.mark_as_inactive "INACTIVE"
         " dispositivos marcados como inactivos." request filters selected s.
Proof.
  intros request filters selected s Hf Hne Hin. split.
  - apply mark_twice; [reflexivity | exact Hf | exact Hne | exact Hin].
  - apply mark_twice; [reflexivity | exact Hf | exact Hne | exact Hin].
Qed.

Lemma C7_mark_idempotent_witness :
  same_state_and_count_twice DeviceAdmin.mark_as_active "ACTIVE"
    " dispositivos marcados como activos." Scenario.Q QuerySet.all [1] Scenario.site
  /\ same_state_and_count_twice DeviceAdmin.mark_as_inactive "INACTIVE"
       " dispositivos marcados como inactivos." Scenario.Q QuerySet.all [1]
       Scenario.site.
Proof.
  apply (C7_mark_idempotent Scenario.Q QuerySet.all [1] Scenario.site).
  - intros db l v d. reflexivity.
  - discriminate.
  - intros id [<- | []]. exists Scenario.D1. repeat split. left. reflexivity.
Defined.

(** *** What a bulk update writes *)

(** A column the assignment does not write has, row for row, the values it
    had. *)
Lemma updated_keeps_columns {R B : Type} `{Model R} (column : R -> B) (db : DB.t)
    (qs : QuerySet.t R) (set : R -> R) :
  (forall r, column (set r) = column r) ->
  map column (QuerySet.updated db qs set) = map column (objects db).
Proof.
  intros Hset. unfold QuerySet.updated. rewrite map_map. apply map_ext.
  intros r. destruct (qs db r); [apply Hset | reflexivity].
Qed.

(** C8: the bulk actions do not refresh updated_at.  Whatever the action,
    the principal, the filters of the change list and the ids, every row of every table has the created_at
    and updated_at it had; in the scenario Q's mark_as_active turns D1 from
    INACTIVE to ACTIVE and its updated_at stays 1, where a save at time 7
    would have set it to 7. *)
Theorem C8_bulk_update_keeps_updated_at :
  (forall (action : BulkAction) (request : Request.t)
          (filters : QuerySet.t (row (action_kind action))) (select_across : bool)
          (selected : list Z) (s : Site.t) (k : EntityKind),
      map (fun r : row k => (BaseModel.created_at (base r), BaseModel.updated_at (base r)))
          (objects
             (Site.db (execute_action action request filters select_across selected s)))
      = map (fun r : row k => (BaseModel.created_at (base r), BaseModel.updated_at (base r)))
          (objects (Site.db s)))
  /\ map (fun d => (BaseModel.state (Device.base d), BaseModel.updated_at (Device.base d)))
         (DB.devices (Site.db Scenario.site))
     = [("INACTIVE", 1); ("INACTIVE", 1)]
  /\ map (fun d => (BaseModel.state (Device.base d), BaseModel.updated_at (Device.base d)))
         (DB.devices
            (Site.db (execute_action mark_as_active Scenario.Q QuerySet.all false [1]
                        Scenario.site)))
     = [("ACTIVE", 1); ("INACTIVE", 1)]
  /\ BaseModel.updated_at (BaseModel.save 7 (Device.base Scenario.D1)) = 7.
Proof.
  split; [|repeat split].
  intros action request filters select_across selected s k.
  destruct action; db_after_action; destruct k; try reflexivity.
  all: refine (updated_keeps_columns _ (Site.db s) _ _ _); intros r; reflexivity.
Qed.

(** The creation and update dates are ordered on a new row, stay ordered
    under a save that is not earlier than the creation, and the bulk actions
    do not touch them. *)
Lemma dates_ordered_create (now : Z) (state : option string) :
  BaseModel.created_at (BaseModel.create now state)
  <= BaseModel.updated_at (BaseModel.create now state).
Proof. cbn. lia. Qed.

Lemma dates_ordered_save (now : Z) (b : BaseModel.t) :
  BaseModel.created_at b <= now ->
  BaseModel.created_at (BaseModel.save now b) <= BaseModel.updated_at (BaseModel.save now b).
Proof. intros H. exact H. Qed.

(** ** Soft delete *)

(** C5, as stated, fails: D1 with a deletion date is listed for a
    superuser and for a member of its organization, and mark_as_active
    updates it. *)
Lemma C5_soft_deleted_device_is_listed_and_updated :
  BaseModel.deleted_at (Device.base Scenario.D1_deleted) = Some 5
  /\ QuerySet.rows Scenario.db_deleted (DeviceAdmin.get_queryset Scenario.Root)
     = [Scenario.D1_deleted; Scenario.D2]
  /\ QuerySet.rows Scenario.db_deleted (DeviceAdmin.get_queryset Scenario.P)
     = [Scenario.D1_deleted]
  /\ DB.devices
       (Site.db (execute_action mark_as_active Scenario.P QuerySet.all false [1]
                   (Site.mk Scenario.db_deleted [])))
     = [DeviceAdmin.set_state "ACTIVE" Scenario.D1_deleted; Scenario.D2].
Proof. repeat split. Qed.

(** C5, amended: deleted_at is stored and never read.  For every principal
    and kind, a record is in the visible scope with a deletion date exactly
    when it is without one. *)
Theorem C5_scope_ignores_deleted_at :
  forall (principal : Request.t) (k : EntityKind) (db : DB.t) (record : row k)
         (deleted_at : option Z),
    registered_get_queryset k principal db
      (set_base (BaseModel.set_deleted_at deleted_at (base record)) record)
    = registered_get_queryset k principal db record.
Proof.
  intros principal k db record deleted_at.
  rewrite !registered_scope_by_kind.
  unfold kind_first_visible_scope.
  destruct k; reflexivity.
Qed.

(** ** The role policy *)

Lemma fk_eq_spec (a b : option Z) : fk_eq a b = true <-> a = b.
Proof.
  destruct a as [x|], b as [y|]; cbn; try (split; [discriminate | congruence]).
  - rewrite Z.eqb_eq. split; congruence.
  - split; reflexivity.
Qed.

(** C4: has_organization_access is true exactly for a superuser's profile
    or when the profile's organization equals the one asked about, and this
    equality holds between two nulls: a profile without organization, of a
    user that is not a superuser, is granted access to the null
    organization. *)
Theorem C4_has_organization_access_null_null :
  (forall (self : UserProfile.t) (organization : option Z),
      UserProfile.has_organization_access self organization = true
      <-> (User.is_superuser (UserProfile.user self) = true
           \/ UserProfile.organization self = organization))
  /\ User.is_superuser (UserProfile.user (Scenario.profile 3 "n" None "VIEWER")) = false
  /\ UserProfile.organization (Scenario.profile 3 "n" None "VIEWER") = None
  /\ UserProfile.has_organization_access (Scenario.profile 3 "n" None "VIEWER") None = true.
Proof.
  split; [|repeat split].
  intros self organization. unfold UserProfile.has_organization_access.
  destruct (User.is_superuser (UserProfile.user self)).
  - split; auto.
  - rewrite fk_eq_spec. split; [auto | intros [H|H]; [discriminate | exact H]].
Qed.

(** C9: can_view_all_organizations is true exactly for a superuser's
    profile or the role ADMIN; the visible scope of a user that is not a
    superuser is the same whatever the role of the profile, for every kind. *)
Theorem C9_role_grant_not_in_scope :
  forall (u : User.t) (p : UserProfile.t) (role1 role2 : string) (k : EntityKind)
         (db : DB.t) (record : row k),
    User.is_superuser u = false ->
    (forall self : UserProfile.t,
        UserProfile.can_view_all_organizations self = true
        <-> (User.is_superuser (UserProfile.user self) = true
             \/ UserProfile.role self = "ADMIN"))
    /\ registered_get_queryset k (Request.mk u (Some (UserProfile.set_role role1 p)))
         db record
       = registered_get_queryset k (Request.mk u (Some (UserProfile.set_role role2 p)))
           db record.
Proof.
  intros u p role1 role2 k db record Hu. split.
  - intros self. unfold UserProfile.can_view_all_organizations.
    rewrite orb_true_iff, String.eqb_eq. reflexivity.
  - rewrite !registered_scope_by_kind. reflexivity.
Qed.

Lemma C9_role_grant_not_in_scope_witness :
  (forall self : UserProfile.t,
      UserProfile.can_view_all_organizations self = true
      <-> (User.is_superuser (UserProfile.user self) = true
           \/ UserProfile.role self = "ADMIN"))
  /\ DeviceAdmin.get_queryset
       (Request.mk (Scenario.user 1 "p")
          (Some (UserProfile.set_role "ADMIN" (Scenario.profile 1 "p" (Some 1) "VIEWER"))))
       Scenario.db Scenario.D2
     = DeviceAdmin.get_queryset
         (Request.mk (Scenario.user 1 "p")
            (Some (UserProfile.set_role "VIEWER" (Scenario.profile 1 "p" (Some 1) "VIEWER"))))
         Scenario.db Scenario.D2.
Proof.
  apply (C9_role_grant_not_in_scope (Scenario.user 1 "p")
           (Scenario.profile 1 "p" (Some 1) "VIEWER") "ADMIN" "VIEWER" KDevice
           Scenario.db Scenario.D2).
  reflexivity.
Defined.

(** ** Field defaults *)

(** C10: a row created without a state is ACTIVE, whatever the model; an
    alert created without level and is_resolved is MEDIUM and unresolved; a
    profile created without role is a VIEWER. *)
Theorem C10_field_defaults :
  forall (now id fk1 fk2 fk3 n : Z) (name email : string) (x : float) (u : User.t)
         (org : option Z) (phone : option string),
    BaseModel.state (Category.base (Category.create now id name None)) = "ACTIVE"
    /\ BaseModel.state (Zone.base (Zone.create now id name None)) = "ACTIVE"
    /\ BaseModel.state (Organization.base (Organization.create now id name email None))
       = "ACTIVE"
    /\ BaseModel.state (Device.base (Device.create now id name fk1 fk2 n fk3 None))
       = "ACTIVE"
    /\ BaseModel.state (Measurement.base (Measurement.create now id fk1 x None))
       = "ACTIVE"
    /\ BaseModel.state (Alert.base (Alert.create now id fk1 name None None None))
       = "ACTIVE"
    /\ BaseModel.state (UserProfile.base (UserProfile.create now id u org None phone None))
       = "ACTIVE"
    /\ Alert.level (Alert.create now id fk1 name None None None) = "MEDIUM"
    /\ Alert.is_resolved (Alert.create now id fk1 name None None None) = false
    /\ UserProfile.role (UserProfile.create now id u org None phone None) = "VIEWER".
Proof. intros. repeat split. Qed.


(** * Further properties of the code *)

(** ** Scoping across models and principals *)

(** X1: A superuser's queryset is the whole table, for every registered
    admin. *)
Theorem superuser_sees_every_row :
  forall (request : Request.t) (k : EntityKind) (db : DB.t),
    User.is_superuser (Request.user request) = true ->
    QuerySet.rows db (registered_get_queryset k request) = objects db.
Proof.
  intros request k db Hsu. unfold QuerySet.rows.
  rewrite (filter_ext _ (fun _ => true)).
  - induction (objects db) as [|r l IH]; cbn; [reflexivity | now rewrite IH].
  - intros r. rewrite registered_scope_by_kind. unfold kind_first_visible_scope.
    rewrite Hsu. now destruct (scoping k).
Qed.

Lemma superuser_sees_every_row_witness :
  QuerySet.rows Scenario.db (registered_get_queryset KAlert Scenario.Root)
  = [Scenario.A1; Scenario.A2].
Proof.
  apply (superuser_sees_every_row Scenario.Root KAlert Scenario.db). reflexivity.
Defined.

(** X2: A measurement or an alert is in a principal's scope exactly when the
    device it points to is in the principal's scope of devices. *)
Theorem indirect_scope_follows_device :
  forall (request : Request.t) (k : EntityKind) (db : DB.t) (record : row k)
         (device : Z) (d : Device.t),
    scoping k = INDIRECT ->
    device_id record = Some device ->
    DB.get_device db device = Some d ->
    registered_get_queryset k request db record
    = DeviceAdmin.get_queryset request db d.
Proof.
  intros request k db record device d Hk Hdev Hd.
  rewrite registered_scope_by_kind.
  change (DeviceAdmin.get_queryset request db d)
    with (registered_get_queryset KDevice request db d).
  rewrite registered_scope_by_kind.
  unfold kind_first_visible_scope. rewrite Hk. cbn [scoping].
  destruct (User.is_superuser (Request.user request)); [reflexivity|].
  destruct (principal_organization request) as [org|]; [|reflexivity].
  unfold indirect_match, direct_match. rewrite Hdev, Hd. reflexivity.
Qed.

Lemma indirect_scope_follows_device_witness :
  AlertAdmin.get_queryset Scenario.P Scenario.db Scenario.A2
  = DeviceAdmin.get_queryset Scenario.P Scenario.db Scenario.D2.
Proof.
  apply (indirect_scope_follows_device Scenario.P KAlert Scenario.db Scenario.A2 2
           Scenario.D2); reflexivity.
Defined.

(** In the scope of a principal that is not a superuser, every record of a
    filtered model belongs to the principal's organization: directly, or
    through a device that is in the table. *)
Lemma scoped_record_organization (request : Request.t) (k : EntityKind) (db : DB.t)
    (record : row k) :
  User.is_superuser (Request.user request) = false ->
  scoping k <> NONE ->
  registered_get_queryset k request db record = true ->
  exists org, principal_organization request = Some org
    /\ (direct_match org record = true \/ indirect_match org db record = true).
Proof.
  intros Hsu Hk. rewrite registered_scope_by_kind.
  unfold kind_first_visible_scope. rewrite Hsu.
  destruct (scoping k); [congruence| |];
    destruct (principal_organization request) as [org|]; try discriminate;
    intros H; exists org; auto.
Qed.

(** Isolation of two scopes, record by record. *)
Lemma organizations_are_isolated_scopes :
  forall (p1 p2 : Request.t) (k : EntityKind) (db : DB.t) (record : row k),
    User.is_superuser (Request.user p1) = false ->
    User.is_superuser (Request.user p2) = false ->
    principal_organization p1 <> principal_organization p2 ->
    scoping k <> NONE ->
    registered_get_queryset k p1 db record = true ->
    registered_get_queryset k p2 db record = false.
Proof.
  intros p1 p2 k db record Hs1 Hs2 Hne Hk H1.
  destruct (registered_get_queryset k p2 db record) eqn:H2; [exfalso|reflexivity].
  destruct (scoped_record_organization p1 k db record Hs1 Hk H1) as (o1 & Ho1 & M1).
  destruct (scoped_record_organization p2 k db record Hs2 Hk H2) as (o2 & Ho2 & M2).
  apply Hne. rewrite Ho1, Ho2. f_equal.
  unfold direct_match, indirect_match in M1, M2.
  destruct k; cbn in Hk, M1, M2; try congruence;
    repeat match goal with
           | H : _ \/ _ |- _ => destruct H
           | H : false = true |- _ => discriminate H
           | H : context [DB.get_device ?db ?x] |- _ =>
               destruct (DB.get_device db x)
           | H : (_ =? _) = true |- _ => apply Z.eqb_eq in H
           end; congruence.
Qed.

(** X3: two principals of different organizations, neither a superuser, share
    no device, measurement or alert. *)
Theorem organizations_are_isolated :
  forall (p1 p2 : Request.t) (k : EntityKind) (db : DB.t) (record : row k),
    User.is_superuser (Request.user p1) = false ->
    User.is_superuser (Request.user p2) = false ->
    principal_organization p1 <> principal_organization p2 ->
    scoping k <> NONE ->
    registered_get_queryset k p1 db record = true ->
    registered_get_queryset k p2 db record = false.
Proof.
  intros p1 p2 k db record. apply organizations_are_isolated_scopes.
Qed.

Lemma organizations_are_isolated_witness :
  registered_get_queryset KMeasurement Scenario.R Scenario.db Scenario.M1 = false.
Proof.
  apply (organizations_are_isolated Scenario.P Scenario.R KMeasurement Scenario.db
           Scenario.M1); try reflexivity; discriminate.
Defined.

(** ** How the bulk actions compose *)

Section Overwrite.
Variables (A : Type) (p p' : A -> bool) (set1 set2 : A -> A).
Hypothesis p'_p : forall x, p' x = p x.
Hypothesis p_set1 : forall x, p (set1 x) = p x.
Hypothesis set2_set1 : forall x, set2 (set1 x) = set2 x.

Lemma update_overwrites (l : list A) :
  map (fun x => if p' x then set2 x else x) (map (fun x => if p x then set1 x else x) l)
  = map (fun x => if p x then set2 x else x) l.
Proof using p'_p p_set1 set2_set1.
  rewrite map_map. apply map_ext. intros x.
  rewrite p'_p. destruct (p x) eqn:Hx.
  - now rewrite p_set1, Hx, set2_set1.
  - now rewrite Hx.
Qed.
End Overwrite.

Lemma set_alerts_same (db : DB.t) : DB.set_alerts (DB.alerts db) db = db.
Proof. now destruct db. Qed.

Lemma set_is_resolved_same (a : Alert.t) :
  Alert.set_is_resolved (Alert.is_resolved a) a = a.
Proof. now destruct a. Qed.

(** The alert queryset reads the device of the alert and the table of
    devices: neither [is_resolved] nor the table of alerts. *)
Lemma alert_scope_stable (request : Request.t) (db db' : DB.t) (a : Alert.t) (v : bool) :
  DB.devices db' = DB.devices db ->
  AlertAdmin.get_queryset request db' (Alert.set_is_resolved v a)
  = AlertAdmin.get_queryset request db a.
Proof.
  intros Hdev.
  unfold AlertAdmin.get_queryset, OrganizationFilteredAdmin.get_queryset.
  destruct (User.is_superuser (Request.user request)); cbn [negb]; [reflexivity|].
  destruct (Request.profile request) as [p|]; [|reflexivity].
  destruct (UserProfile.organization p); [|reflexivity].
  cbn. unfold DB.get_device. now rewrite Hdev.
Qed.

(** The rows a device action writes are the same rows whatever their
    state, when the filters do not read the state. *)
Lemma device_acted_on_stable (request : Request.t) (filters : QuerySet.t Device.t)
    (select_across : bool) (selected : list Z) :
  DeviceAdmin.ignores_state filters ->
  forall (db : DB.t) (l : list Device.t) (v : string) (d : Device.t),
    ModelAdmin.acted_on DeviceAdmin.get_queryset request filters select_across selected
      (DB.set_devices l db) (DeviceAdmin.set_state v d)
    = ModelAdmin.acted_on DeviceAdmin.get_queryset request filters select_across
        selected db d.
Proof.
  intros Hf db l v d. unfold ModelAdmin.acted_on.
  destruct selected, select_across; try reflexivity;
    now apply device_action_queryset_stable.
Qed.

Lemma alert_acted_on_stable (request : Request.t) (filters : QuerySet.t Alert.t)
    (select_across : bool) (selected : list Z) :
  AlertAdmin.ignores_is_resolved filters ->
  forall (db : DB.t) (l : list Alert.t) (v : bool) (a : Alert.t),
    ModelAdmin.acted_on AlertAdmin.get_queryset request filters select_across selected
      (DB.set_alerts l db) (Alert.set_is_resolved v a)
    = ModelAdmin.acted_on AlertAdmin.get_queryset request filters select_across
        selected db a.
Proof.
  intros Hf db l v a.
  assert (Hq : ModelAdmin.action_queryset AlertAdmin.get_queryset request filters
                 select_across selected (DB.set_alerts l db) (Alert.set_is_resolved v a)
               = ModelAdmin.action_queryset AlertAdmin.get_queryset request filters
                   select_across selected db a).
  { cbv beta zeta delta [ModelAdmin.action_queryset ChangeList.get_queryset
                         QuerySet.filter_pk__in].
    assert (Hs : AlertAdmin.get_queryset request (DB.set_alerts l db)
                   (Alert.set_is_resolved v a)
                 = AlertAdmin.get_queryset request db a)
      by now apply alert_scope_stable.
    destruct select_across; cbv beta; rewrite Hf, Hs; reflexivity. }
  unfold ModelAdmin.acted_on. destruct selected, select_across; try reflexivity;
    exact Hq.
Qed.

Lemma device_update_overwrites (request : Request.t) (filters : QuerySet.t Device.t)
    (select_across : bool) (selected : list Z) (db : DB.t) (v1 v2 : string) :
  DeviceAdmin.ignores_state filters ->
  let qs :=
    ModelAdmin.acted_on DeviceAdmin.get_queryset request filters select_across selected in
  let db1 := DB.set_devices (QuerySet.updated db qs (DeviceAdmin.set_state v1)) db in
  DB.set_devices (QuerySet.updated db1 qs (DeviceAdmin.set_state v2)) db1
  = DB.set_devices (QuerySet.updated db qs (DeviceAdmin.set_state v2)) db.
Proof.
  intros Hf qs db1. unfold db1, QuerySet.updated, DB.set_devices.
  cbn [objects Device_Model DB.devices DB.categories DB.organizations DB.zones
       DB.measurements DB.alerts DB.profiles].
  f_equal. apply update_overwrites.
  - intros x. rewrite <- (set_state_same x) at 1.
    now apply device_acted_on_stable.
  - intros x. rewrite <- (set_devices_same db) at 1.
    now apply device_acted_on_stable.
  - intros x. now destruct x.
Qed.

Lemma alert_update_overwrites (request : Request.t) (filters : QuerySet.t Alert.t)
    (select_across : bool) (selected : list Z) (db : DB.t) (v1 v2 : bool) :
  AlertAdmin.ignores_is_resolved filters ->
  let qs :=
    ModelAdmin.acted_on AlertAdmin.get_queryset request filters select_across selected in
  let db1 := DB.set_alerts (QuerySet.updated db qs (Alert.set_is_resolved v1)) db in
  DB.set_alerts (QuerySet.updated db1 qs (Alert.set_is_resolved v2)) db1
  = DB.set_alerts (QuerySet.updated db qs (Alert.set_is_resolved v2)) db.
Proof.
  intros Hf qs db1. unfold db1, QuerySet.updated, DB.set_alerts.
  cbn [objects Alert_Model DB.devices DB.categories DB.organizations DB.zones
       DB.measurements DB.alerts DB.profiles].
  f_equal. apply update_overwrites.
  - intros x. rewrite <- (set_is_resolved_same x) at 1.
    now apply alert_acted_on_stable.
  - intros x. rewrite <- (set_alerts_same db) at 1.
    now apply alert_acted_on_stable.
  - intros x. now destruct x.
Qed.

(** X6: of two bulk actions on the same model, run by the same principal
    from the same change list on the same ids, the later one decides,
    provided the filters of the change list do not read the column the
    actions write: the database is the one the later action alone would
    leave.  So mark_as_inactive undoes mark_as_active and the reverse, and
    likewise for resolving and unresolving alerts. *)
Theorem later_action_overwrites :
  forall (request : Request.t) (device_filters : QuerySet.t Device.t)
         (alert_filters : QuerySet.t Alert.t) (select_across : bool)
         (selected : list Z) (s : Site.t),
    (DeviceAdmin.ignores_state device_filters ->
     Site.db (execute_action mark_as_inactive request device_filters select_across selected
                (execute_action mark_as_active request device_filters select_across
                   selected s))
     = Site.db (execute_action mark_as_inactive request device_filters select_across
                  selected s)
     /\ Site.db (execute_action mark_as_active request device_filters select_across
                   selected
                   (execute_action mark_as_inactive request device_filters select_across
                      selected s))
        = Site.db (execute_action mark_as_active request device_filters select_across
                     selected s))
    /\ (AlertAdmin.ignores_is_resolved alert_filters ->
        Site.db (execute_action mark_as_unresolved request alert_filters select_across
                   selected
                   (execute_action mark_as_resolved request alert_filters select_across
                      selected s))
        = Site.db (execute_action mark_as_unresolved request alert_filters select_across
                     selected s)
        /\ Site.db (execute_action mark_as_resolved request alert_filters select_across
                      selected
                      (execute_action mark_as_unresolved request alert_filters
                         select_across selected s))
           = Site.db (execute_action mark_as_resolved request alert_filters select_across
                        selected s)).
Proof.
  intros request fd fa select_across selected s. split; intros Hf; split.
  all: db_after_action.
  1, 2: now apply device_update_overwrites.
  all: now apply alert_update_overwrites.
Qed.

Lemma later_action_overwrites_witness :
  Site.db (execute_action mark_as_inactive Scenario.Q QuerySet.all false [1]
             (execute_action mark_as_active Scenario.Q QuerySet.all false [1]
                Scenario.site))
  = Site.db (execute_action mark_as_inactive Scenario.Q QuerySet.all false [1]
               Scenario.site).
Proof.
  apply (proj1 (later_action_overwrites Scenario.Q QuerySet.all QuerySet.all false [1]
                  Scenario.site)).
  intros db l v d. reflexivity.
Defined.

Lemma db_resolved_then_unresolved (request : Request.t) (filters : QuerySet.t Alert.t)
    (select_across : bool) (selected : list Z) (s : Site.t) :
  AlertAdmin.ignores_is_resolved filters ->
  Site.db (execute_action mark_as_unresolved request filters select_across selected
             (execute_action mark_as_resolved request filters select_across selected s))
  = Site.db (execute_action mark_as_unresolved request filters select_across selected s).
Proof. intros Hf. db_after_action. now apply alert_update_overwrites. Qed.

(** X7: run from a change list whose filters do not read is_resolved,
    resolving alerts and unresolving them again gives back the database, when
    the alerts the action is run on were unresolved to begin with. *)
Theorem resolve_then_unresolve_restores :
  forall (request : Request.t) (filters : QuerySet.t Alert.t) (select_across : bool)
         (selected : list Z) (s : Site.t),
    AlertAdmin.ignores_is_resolved filters ->
    (forall a, In a (DB.alerts (Site.db s)) ->
       ModelAdmin.action_queryset AlertAdmin.get_queryset request filters select_across
         selected (Site.db s) a = true ->
       Alert.is_resolved a = false) ->
    Site.db (execute_action mark_as_unresolved request filters select_across selected
               (execute_action mark_as_resolved request filters select_across selected s))
    = Site.db s.
Proof.
  intros request filters select_across selected s Hf Hun.
  rewrite db_resolved_then_unresolved by exact Hf.
  db_after_action. unfold QuerySet.updated. cbn [objects Alert_Model].
  rewrite map_fixed; [apply set_alerts_same|].
  intros a Ha.
  destruct (ModelAdmin.acted_on AlertAdmin.get_queryset request filters select_across
              selected (Site.db s) a) eqn:Hq; [|reflexivity].
  assert (Hres : Alert.is_resolved a = false).
  { apply (Hun a Ha). unfold ModelAdmin.acted_on in Hq.
    destruct selected, select_across; try exact Hq; discriminate Hq. }
  rewrite <- Hres. apply set_is_resolved_same.
Qed.

Lemma resolve_then_unresolve_restores_witness :
  Site.db (execute_action mark_as_unresolved Scenario.P QuerySet.all false [1; 2]
             (execute_action mark_as_resolved Scenario.P QuerySet.all false [1; 2]
                Scenario.site))
  = Site.db Scenario.site.
Proof.
  apply (resolve_then_unresolve_restores Scenario.P QuerySet.all false [1; 2]
           Scenario.site).
  - intros db l v a. reflexivity.
  - intros a [<- | [<- | []]] _; reflexivity.
Defined.

(** X8: A bulk action writes one column of one table: the devices are the same
    up to their state, the alerts up to is_resolved, and the other five
    tables are the same. *)
Theorem bulk_action_writes_one_column :
  forall (action : BulkAction) (request : Request.t)
         (filters : QuerySet.t (row (action_kind action))) (select_across : bool)
         (selected : list Z) (s : Site.t),
    let db' := Site.db (execute_action action request filters select_across selected s) in
    DB.categories db' = DB.categories (Site.db s)
    /\ DB.organizations db' = DB.organizations (Site.db s)
    /\ DB.zones db' = DB.zones (Site.db s)
    /\ DB.measurements db' = DB.measurements (Site.db s)
    /\ DB.profiles db' = DB.profiles (Site.db s)
    /\ map (DeviceAdmin.set_state "") (DB.devices db')
       = map (DeviceAdmin.set_state "") (DB.devices (Site.db s))
    /\ map (Alert.set_is_resolved false) (DB.alerts db')
       = map (Alert.set_is_resolved false) (DB.alerts (Site.db s))
    /\ (action_kind action = KDevice -> DB.alerts db' = DB.alerts (Site.db s))
    /\ (action_kind action = KAlert -> DB.devices db' = DB.devices (Site.db s)).
Proof.
  intros action request filters select_across selected s db'. subst db'.
  destruct action; db_after_action; repeat split; try reflexivity; try discriminate.
  all: refine (updated_keeps_columns _ (Site.db s) _ _ _); intros r; now destruct r.
Qed.

Lemma bulk_action_writes_one_column_witness :
  DB.alerts
    (Site.db (execute_action mark_as_active Scenario.Q QuerySet.all false [1]
                Scenario.site))
  = DB.alerts (Site.db Scenario.site).
Proof.
  apply (bulk_action_writes_one_column mark_as_active Scenario.Q QuerySet.all false [1]
           Scenario.site).
  reflexivity.
Defined.

(** ** What one principal's action does to another's view *)

Lemma filter_map_frame {A : Type} (p : A -> bool) (f : A -> A) (l : list A) :
  (forall x, p (f x) = p x) ->
  (forall x, p x = true -> f x = x) ->
  filter p (map f l) = filter p l.
Proof.
  intros Hp Hf. induction l as [|x l IH]; [reflexivity|].
  cbn. rewrite Hp, IH. destruct (p x) eqn:Hx; [|reflexivity].
  now rewrite (Hf x Hx).
Qed.

Lemma find_map_keeps {A : Type} (t : A -> bool) (f : A -> A) (l : list A) :
  (forall x, t (f x) = t x) ->
  find t (map f l) = option_map f (find t l).
Proof.
  intros Ht. induction l as [|x l IH]; [reflexivity|].
  cbn. rewrite Ht. destruct (t x); [reflexivity | exact IH].
Qed.

(** An update of the state of devices keeps the organization of the device
    a foreign key points to. *)
Lemma indirect_match_after_device_update {R : Type} `{Model R} (org : Z) (db : DB.t)
    (qs : QuerySet.t Device.t) (v : string) (record : R) :
  indirect_match org
    (DB.set_devices (QuerySet.updated db qs (DeviceAdmin.set_state v)) db) record
  = indirect_match org db record.
Proof.
  unfold indirect_match. destruct (device_id record) as [pk0|]; [|reflexivity].
  unfold DB.get_device, QuerySet.updated. cbn [DB.devices DB.set_devices].
  rewrite find_map_keeps.
  - cbn [objects Device_Model].
    destruct (find _ (DB.devices db)) as [dev|]; [|reflexivity].
    cbn [option_map]. now destruct (qs db dev).
  - intros x. now destruct (qs db x).
Qed.

(** The scope of any principal, on any record, is the same before and
    after a bulk action: the actions write neither an organization nor a
    foreign key. *)
Lemma scope_same_after_action (action : BulkAction) (actor observer : Request.t)
    (filters : QuerySet.t (row (action_kind action))) (select_across : bool)
    (selected : list Z) (s : Site.t) (k : EntityKind) (record : row k) :
  registered_get_queryset k observer
    (Site.db (execute_action action actor filters select_across selected s)) record
  = registered_get_queryset k observer (Site.db s) record.
Proof.
  rewrite !registered_scope_by_kind. unfold kind_first_visible_scope.
  destruct (scoping k); try reflexivity.
  destruct (User.is_superuser (Request.user observer)); [reflexivity|].
  destruct (principal_organization observer) as [org|]; [|reflexivity].
  destruct action; db_after_action; try reflexivity.
  all: apply indirect_match_after_device_update.
Qed.

(** The scope reads neither the state of a device nor is_resolved. *)
Lemma scope_ignores_written_columns (observer : Request.t) (db : DB.t) :
  (forall v d, DeviceAdmin.get_queryset observer db (DeviceAdmin.set_state v d)
               = DeviceAdmin.get_queryset observer db d)
  /\ (forall v a, AlertAdmin.get_queryset observer db (Alert.set_is_resolved v a)
                  = AlertAdmin.get_queryset observer db a).
Proof.
  split; intros v r.
  - apply device_scope_stable.
  - now apply alert_scope_stable.
Qed.

(** X4: A bulk action run by a principal of one organization leaves every list
    of a principal of another organization as it was, rows and contents,
    for every model, whatever the filters of the actor's change list and the
    ids; neither of the two is a superuser. *)
Theorem action_invisible_to_other_organization :
  forall (action : BulkAction) (actor observer : Request.t)
         (filters : QuerySet.t (row (action_kind action))) (select_across : bool)
         (selected : list Z) (s : Site.t) (k : EntityKind),
    User.is_superuser (Request.user actor) = false ->
    User.is_superuser (Request.user observer) = false ->
    principal_organization actor <> principal_organization observer ->
    QuerySet.rows
      (Site.db (execute_action action actor filters select_across selected s))
      (registered_get_queryset k observer)
    = QuerySet.rows (Site.db s) (registered_get_queryset k observer).
Proof.
  intros action actor observer filters select_across selected s k Ha Ho Hne.
  unfold QuerySet.rows.
  rewrite (filter_ext _ (registered_get_queryset k observer (Site.db s)))
    by (intros r; apply scope_same_after_action).
  assert (Hiso : forall k' (r : row k'), scoping k' <> NONE ->
            registered_get_queryset k' observer (Site.db s) r = true ->
            registered_get_queryset k' actor (Site.db s) r = false).
  { intros k' r Hk' Hr.
    apply (organizations_are_isolated_scopes observer actor k' (Site.db s) r);
      auto. }
  destruct (scope_ignores_written_columns observer (Site.db s)) as [Hdev Hal].
  destruct action; db_after_action; destruct k; try reflexivity.
  all: cbn [objects row_Model Device_Model Alert_Model DB.set_devices DB.set_alerts
            DB.devices DB.alerts];
    unfold QuerySet.updated; apply filter_map_frame; intros x.
  1, 3: destruct (ModelAdmin.acted_on DeviceAdmin.get_queryset actor filters
                    select_across selected (Site.db s) x);
    [exact (Hdev _ x) | reflexivity].
  3, 5: destruct (ModelAdmin.acted_on AlertAdmin.get_queryset actor filters
                    select_across selected (Site.db s) x);
    [exact (Hal _ x) | reflexivity].
  all: intros Hx.
  1, 2: assert (Hf := Hiso KDevice x ltac:(discriminate) Hx).
  3, 4: assert (Hf := Hiso KAlert x ltac:(discriminate) Hx).
  all: cbn [registered_get_queryset] in Hf;
    now rewrite acted_on_outside by exact Hf.
Qed.

Lemma action_invisible_to_other_organization_witness :
  QuerySet.rows
    (Site.db (execute_action mark_as_active Scenario.Q QuerySet.all false [1; 2]
                Scenario.site))
    (registered_get_queryset KDevice Scenario.R)
  = [Scenario.D2].
Proof.
  apply (action_invisible_to_other_organization mark_as_active Scenario.Q Scenario.R
           QuerySet.all false [1; 2] Scenario.site KDevice); try reflexivity;
    discriminate.
Defined.

(** X5: the admin never asks the role: the action of a principal whose profile
    cannot edit devices does what the same action does for any other role
    of the same profile. *)
Theorem bulk_actions_ignore_role :
  forall (action : BulkAction) (u : User.t) (p : UserProfile.t) (role : string)
         (filters : QuerySet.t (row (action_kind action))) (select_across : bool)
         (selected : list Z) (s : Site.t),
    UserProfile.can_edit_devices (UserProfile.set_role "VIEWER" p) = false
    /\ execute_action action
         (Request.mk u (Some (UserProfile.set_role "VIEWER" p))) filters select_across
         selected s
       = execute_action action
           (Request.mk u (Some (UserProfile.set_role role p))) filters select_across
           selected s.
Proof.
  intros action u p role filters select_across selected s. split; [reflexivity|].
  destruct action; reflexivity.
Qed.

(** ** Counts *)








(** ** The device count of the master tables *)

Lemma count_zero_iff {R : Type} `{Model R} (db : DB.t) (qs : QuerySet.t R) :
  QuerySet.count db qs = 0%nat <-> forall r, In r (objects db) -> qs db r = false.
Proof.
  unfold QuerySet.count, QuerySet.rows. split.
  - intros Hz r Hr. destruct (qs db r) eqn:Hq; [|reflexivity].
    assert (Hin : In r (filter (qs db) (objects db))) by (apply filter_In; auto).
    destruct (filter (qs db) (objects db)); [contradiction | discriminate].
  - intros Hall. now rewrite filter_nothing.
Qed.

(** The digits of a count are not touched by the escaping. *)
Lemma escape_digits (d : Decimal.uint) :
  escape (NilEmpty.string_of_uint d) = NilEmpty.string_of_uint d.
Proof. induction d; cbn; try rewrite IHd; reflexivity. Qed.

Lemma escape_str (n : nat) : escape (str n) = str n.
Proof.
  unfold str, NilZero.string_of_uint.
  destruct (Nat.to_uint n); try reflexivity; apply escape_digits.
Qed.

(** The cell for a count: the text for zero, the link otherwise. *)
Lemma device_count_cell (db : DB.t) (qs : QuerySet.t Device.t) (url : string) :
  let n := QuerySet.count db qs in
  ((if (0 <? n)%nat
    then "<a href=" ++ String dquote (escape url) ++ String dquote ">"
           ++ escape (str n) ++ " dispositivos</a>"
    else "0 dispositivos") = "0 dispositivos"
   <-> forall d, In d (DB.devices db) -> qs db d = false)
  /\ ((exists d, In d (DB.devices db) /\ qs db d = true) ->
      (if (0 <? n)%nat
       then "<a href=" ++ String dquote (escape url) ++ String dquote ">"
              ++ escape (str n) ++ " dispositivos</a>"
       else "0 dispositivos") = device_link url n).
Proof.
  intros n. pose proof (count_zero_iff db qs) as Hz. fold n in Hz.
  cbn [objects Device_Model] in Hz. split.
  - rewrite <- Hz. destruct (0 <? n)%nat eqn:Hc.
    + apply Nat.ltb_lt in Hc. split; [discriminate | lia].
    + apply Nat.ltb_ge in Hc. split; [lia | reflexivity].
  - intros (d & Hd & Hq). destruct (0 <? n)%nat eqn:Hc.
    + unfold device_link. now rewrite escape_str.
    + apply Nat.ltb_ge in Hc. assert (Hn : n = 0%nat) by lia.
      rewrite (proj1 Hz Hn d Hd) in Hq. discriminate.
Qed.

(** X11: the cell of a category, a zone or an organization reads '0
    dispositivos' exactly when no device of the table points to it,
    whoever looks and whatever the organization of the devices; otherwise it
    is the link to the change list of devices filtered by the object, whose
    text is the number of devices of the table that point to it. *)
Theorem device_count_zero_iff_no_device :
  forall (changelist : string) (db : DB.t),
    (forall obj : Category.t,
        (CategoryAdmin.device_count changelist db obj = "0 dispositivos"
         <-> forall d, In d (DB.devices db) -> Device.category d <> Category.id obj)
        /\ ((exists d, In d (DB.devices db) /\ Device.category d = Category.id obj) ->
            CategoryAdmin.device_count changelist db obj
            = device_link
                (changelist ++ "?category__id__exact=" ++ str_int (Category.id obj))
                (List.length
                   (filter (fun d => Device.category d =? Category.id obj)
                      (DB.devices db)))))
    /\ (forall obj : Zone.t,
          (ZoneAdmin.device_count changelist db obj = "0 dispositivos"
           <-> forall d, In d (DB.devices db) -> Device.zone d <> Zone.id obj)
          /\ ((exists d, In d (DB.devices db) /\ Device.zone d = Zone.id obj) ->
              ZoneAdmin.device_count changelist db obj
              = device_link
                  (changelist ++ "?zone__id__exact=" ++ str_int (Zone.id obj))
                  (List.length
                     (filter (fun d => Device.zone d =? Zone.id obj) (DB.devices db)))))
    /\ (forall obj : Organization.t,
          (OrganizationAdmin.device_count changelist db obj = "0 dispositivos"
           <-> forall d, In d (DB.devices db)
                         -> Device.organization d <> Organization.id obj)
          /\ ((exists d, In d (DB.devices db)
                         /\ Device.organization d = Organization.id obj) ->
              OrganizationAdmin.device_count changelist db obj
              = device_link
                  (changelist ++ "?organization__id__exact="
                     ++ str_int (Organization.id obj))
                  (List.length
                     (filter (fun d => Device.organization d =? Organization.id obj)
                        (DB.devices db))))).
Proof.
  intros changelist db.
  split; [|split]; intros obj.
  - destruct (device_count_cell db (related.Category_devices obj)
                (changelist ++ "?category__id__exact=" ++ str_int (Category.id obj)))
      as [Hzero Hlink].
    split.
    + etransitivity; [exact Hzero|]. unfold related.Category_devices.
      split; intros H d Hd; specialize (H d Hd); now apply Z.eqb_neq.
    + intros (d & Hd & Heq). apply Hlink. exists d. split; [exact Hd|].
      unfold related.Category_devices. now apply Z.eqb_eq.
  - destruct (device_count_cell db (related.Zone_devices obj)
                (changelist ++ "?zone__id__exact=" ++ str_int (Zone.id obj)))
      as [Hzero Hlink].
    split.
    + etransitivity; [exact Hzero|]. unfold related.Zone_devices.
      split; intros H d Hd; specialize (H d Hd); now apply Z.eqb_neq.
    + intros (d & Hd & Heq). apply Hlink. exists d. split; [exact Hd|].
      unfold related.Zone_devices. now apply Z.eqb_eq.
  - destruct (device_count_cell db (related.Organization_devices obj)
                (changelist ++ "?organization__id__exact="
                   ++ str_int (Organization.id obj)))
      as [Hzero Hlink].
    split.
    + etransitivity; [exact Hzero|]. unfold related.Organization_devices.
      split; intros H d Hd; specialize (H d Hd); now apply Z.eqb_neq.
    + intros (d & Hd & Heq). apply Hlink. exists d. split; [exact Hd|].
      unfold related.Organization_devices. now apply Z.eqb_eq.
Qed.

Lemma device_count_zero_iff_no_device_witness :
  CategoryAdmin.device_count "/admin/dispositivos/device/" Scenario.db Scenario.cat
  = device_link "/admin/dispositivos/device/?category__id__exact=1" 2.
Proof.
  apply (proj2 (proj1 (device_count_zero_iff_no_device "/admin/dispositivos/device/"
                         Scenario.db) Scenario.cat)).
  exists Scenario.D1. split; [left|]; reflexivity.
Defined.

(** X12: the count of an organization is not scoped: for a principal of another
    organization that is not a superuser, every device the cell counts is
    outside the principal's scope, and the cell still counts it. *)
Theorem device_count_counts_other_organizations :
  forall (changelist : string) (request : Request.t) (db : DB.t)
         (obj : Organization.t) (d : Device.t),
    User.is_superuser (Request.user request) = false ->
    principal_organization request <> Some (Organization.id obj) ->
    In d (DB.devices db) ->
    Device.organization d = Organization.id obj ->
    DeviceAdmin.get_queryset request db d = false
    /\ OrganizationAdmin.device_count changelist db obj <> "0 dispositivos".
Proof.
  intros changelist request db obj d Hsu Hne Hd Horg. split.
  - change (DeviceAdmin.get_queryset request db d)
      with (registered_get_queryset KDevice request db d).
    rewrite registered_scope_by_kind. unfold kind_first_visible_scope.
    cbn [scoping]. rewrite Hsu.
    destruct (principal_organization request) as [org|]; [|reflexivity].
    unfold direct_match. cbn. apply Z.eqb_neq. congruence.
  - unfold OrganizationAdmin.device_count.
    assert (Hc : QuerySet.count db (related.Organization_devices obj) <> 0%nat).
    { rewrite count_zero_iff. intros Hall. specialize (Hall d Hd).
      unfold related.Organization_devices in Hall.
      apply Z.eqb_neq in Hall. contradiction. }
    destruct (0 <? QuerySet.count db (related.Organization_devices obj))%nat eqn:Hlt.
    + discriminate.
    + apply Nat.ltb_ge in Hlt. lia.
Qed.

Lemma device_count_counts_other_organizations_witness :
  DeviceAdmin.get_queryset Scenario.P Scenario.db Scenario.D2 = false
  /\ OrganizationAdmin.device_count "/admin/dispositivos/device/" Scenario.db Scenario.B
     <> "0 dispositivos".
Proof.
  apply (device_count_counts_other_organizations "/admin/dispositivos/device/"
           Scenario.P Scenario.db Scenario.B Scenario.D2).
  - reflexivity.
  - discriminate.
  - right. left. reflexivity.
  - reflexivity.
Defined.

(** ** The short message of an alert *)

Lemma length_append (s t : string) :
  String.length (s ++ t) = (String.length s + String.length t)%nat.
Proof. induction s as [|c s IH]; cbn; [reflexivity | now rewrite IH]. Qed.

Lemma length_prefix (n : nat) (s : string) :
  (n <= String.length s)%nat -> String.length (substring 0 n s) = n.
Proof.
  revert s. induction n as [|n IH]; intros s Hn.
  - now destruct s.
  - destruct s as [|c s]; cbn in *; [lia|]. rewrite IH; [reflexivity | lia].
Qed.

Lemma prefix_of_append (n : nat) (s t : string) :
  (n <= String.length s)%nat -> substring 0 n (substring 0 n s ++ t) = substring 0 n s.
Proof.
  revert s. induction n as [|n IH]; intros s Hn.
  - destruct s; cbn; now destruct t.
  - destruct s as [|c s]; cbn in *; [lia|]. rewrite IH; [reflexivity | lia].
Qed.

Lemma suffix_of_append (s t : string) :
  substring (String.length s) (String.length t) (s ++ t) = t.
Proof.
  induction s as [|c s IH]; cbn; [|exact IH].
  induction t as [|c t IHt]; cbn; [reflexivity | now rewrite IHt].
Qed.

(** X13: message_short never gives more than 53 characters; a message of at
    most 50 characters is shown as it is; a longer one is shown as its
    first 50 characters followed by three dots. *)
Theorem message_short_bounded :
  forall obj : Alert.t,
    let message := Alert.message obj in
    let short := AlertAdmin.message_short obj in
    (String.length short <= 53)%nat
    /\ ((String.length message <= 50)%nat -> short = message)
    /\ ((50 < String.length message)%nat ->
        String.length short = 53%nat
        /\ substring 0 50 short = substring 0 50 message
        /\ substring 50 3 short = "...").
Proof.
  intros obj message short. subst short. unfold AlertAdmin.message_short.
  fold message.
  destruct (50 <? String.length message)%nat eqn:Hlen.
  - apply Nat.ltb_lt in Hlen.
    assert (H50 : String.length (substring 0 50 message) = 50%nat)
      by (apply length_prefix; lia).
    repeat split; try lia.
    + rewrite length_append, H50. cbn. lia.
    + rewrite length_append, H50. reflexivity.
    + apply prefix_of_append. lia.
    + rewrite <- H50 at 1. apply (suffix_of_append _ "...").
  - apply Nat.ltb_ge in Hlen. repeat split; try lia.
Qed.

Lemma message_short_bounded_witness :
  AlertAdmin.message_short Scenario.A1 = "over"
  /\ String.length
       (AlertAdmin.message_short
          (Alert.mk 3 (Scenario.base "ACTIVE") 1
             "Consumo sobre el umbral configurado durante la ultima hora" 1 "HIGH" false))
     = 53%nat.
Proof.
  split.
  - assert (H := proj1 (proj2 (message_short_bounded Scenario.A1))).
    cbv zeta in H. apply H. cbn. lia.
  - assert (H := proj2 (proj2 (message_short_bounded
             (Alert.mk 3 (Scenario.base "ACTIVE") 1
                "Consumo sobre el umbral configurado durante la ultima hora" 1 "HIGH"
                false)))).
    cbv zeta in H. apply H. cbn. lia.
Defined.

(** ** The profile methods, the middleware and the admin filter *)

(** X14: for a user that is logged in and is not a superuser, the middleware
    stores the organization the device list is filtered by: a device is
    listed exactly when its organization is the stored one.  For a superuser
    and for the anonymous user it stores nothing. *)
Theorem middleware_agrees_with_device_filter :
  forall (request : Request.t) (db : DB.t) (d : Device.t),
    (User.is_authenticated (Request.user request) = true ->
     User.is_superuser (Request.user request) = false ->
     (DeviceAdmin.get_queryset request db d = true
      <-> OrganizationFilterMiddleware.process_request request
          = Some (Device.organization d)))
    /\ (User.is_authenticated (Request.user request) = false
        \/ User.is_superuser (Request.user request) = true ->
        OrganizationFilterMiddleware.process_request request = None).
Proof.
  intros request db d. unfold OrganizationFilterMiddleware.process_request. split.
  - intros -> Hsu.
    unfold DeviceAdmin.get_queryset, OrganizationFilteredAdmin.get_queryset.
    rewrite Hsu. cbn [negb andb].
    destruct (match Request.profile request with
              | Some profile => UserProfile.organization profile
              | None => None
              end) as [org|].
    + cbn. rewrite Z.eqb_eq. split; congruence.
    + split; discriminate.
  - intros [-> | ->]; [reflexivity|].
    now destruct (User.is_authenticated (Request.user request)).
Qed.

Lemma middleware_agrees_with_device_filter_witness :
  (DeviceAdmin.get_queryset Scenario.P Scenario.db Scenario.D1 = true
   <-> OrganizationFilterMiddleware.process_request Scenario.P
       = Some (Device.organization Scenario.D1))
  /\ OrganizationFilterMiddleware.process_request Scenario.Root = None.
Proof.
  split.
  - apply (middleware_agrees_with_device_filter Scenario.P Scenario.db Scenario.D1);
      reflexivity.
  - apply (middleware_agrees_with_device_filter Scenario.Root Scenario.db Scenario.D1).
    right. reflexivity.
Defined.

(** X15: on devices, has_organization_access and the admin filter decide the
    same: a device is in the list of a user with a profile exactly when the
    profile has access to the device's organization. *)
Theorem has_organization_access_agrees_with_device_filter :
  forall (request : Request.t) (profile : UserProfile.t) (db : DB.t) (d : Device.t),
    Request.profile request = Some profile ->
    UserProfile.user profile = Request.user request ->
    DeviceAdmin.get_queryset request db d
    = UserProfile.has_organization_access profile (Some (Device.organization d)).
Proof.
  intros request profile db d Hp Hu.
  unfold DeviceAdmin.get_queryset, OrganizationFilteredAdmin.get_queryset,
    UserProfile.has_organization_access.
  rewrite Hp, Hu.
  destruct (User.is_superuser (Request.user request)); cbn [negb]; [reflexivity|].
  destruct (UserProfile.organization profile) as [org|]; [|reflexivity].
  cbn. apply Z.eqb_sym.
Qed.

Lemma has_organization_access_agrees_with_device_filter_witness :
  DeviceAdmin.get_queryset Scenario.P Scenario.db Scenario.D2
  = UserProfile.has_organization_access (Scenario.profile 1 "p" (Some 1) "VIEWER")
      (Some (Device.organization Scenario.D2)).
Proof.
  apply (has_organization_access_agrees_with_device_filter Scenario.P
           (Scenario.profile 1 "p" (Some 1) "VIEWER") Scenario.db Scenario.D2);
    reflexivity.
Defined.

(** X16: can_edit_devices is true exactly for the roles ADMIN, OPERATOR and
    MANAGER, superuser or not; a role that gives the view of all
    organizations to a user that is not a superuser also lets edit; a profile
    created without a role cannot edit. *)
Theorem can_edit_devices_by_role_only :
  (forall self : UserProfile.t,
      UserProfile.can_edit_devices self = true
      <-> (UserProfile.role self = "ADMIN" \/ UserProfile.role self = "OPERATOR"
           \/ UserProfile.role self = "MANAGER"))
  /\ (forall self : UserProfile.t,
        User.is_superuser (UserProfile.user self) = false ->
        UserProfile.can_view_all_organizations self = true ->
        UserProfile.can_edit_devices self = true)
  /\ (forall (now id : Z) (u : User.t) (org : option Z) (phone state : option string),
        UserProfile.can_edit_devices (UserProfile.create now id u org None phone state)
        = false).
Proof.
  assert (Hiff : forall self : UserProfile.t,
             UserProfile.can_edit_devices self = true
             <-> (UserProfile.role self = "ADMIN" \/ UserProfile.role self = "OPERATOR"
                  \/ UserProfile.role self = "MANAGER")).
  { intros self. unfold UserProfile.can_edit_devices, str_in. cbn [existsb].
    rewrite !orb_true_iff, !String.eqb_eq. intuition congruence. }
  split; [exact Hiff|]. split; [|reflexivity].
  intros self Hsu Hview. apply Hiff. left.
  unfold UserProfile.can_view_all_organizations in Hview. rewrite Hsu in Hview.
  now apply String.eqb_eq in Hview.
Qed.

Lemma can_edit_devices_by_role_only_witness :
  UserProfile.can_edit_devices (Scenario.profile 7 "a" (Some 1) "ADMIN") = true.
Proof.
  apply (proj1 (proj2 can_edit_devices_by_role_only)
           (Scenario.profile 7 "a" (Some 1) "ADMIN")); reflexivity.
Defined.

(** ** Validation of the measurement forms *)





(** ** The dates of a device *)

Lemma last_nonempty {A : Type} (x : A) (l : list A) (d d' : A) :
  last (x :: l) d = last (x :: l) d'.
Proof.
  revert x. induction l as [|y l IH]; intros x; [reflexivity|].
  change (last (x :: y :: l) d) with (last (y :: l) d).
  change (last (x :: y :: l) d') with (last (y :: l) d').
  apply IH.
Qed.

Lemma last_cons {A : Type} (x : A) (l : list A) (d : A) :
  last (x :: l) d = last l x.
Proof.
  destruct l as [|y l]; [reflexivity|].
  change (last (x :: y :: l) d) with (last (y :: l) d).
  apply last_nonempty.
Qed.

(** X18: through any number of saves of the change form after its
    creation, a device keeps its primary key and its creation date, its
    deletion date stays null, its update date is the time of the last save
    and its state the one of the last form; when no save is earlier than the
    creation, the update date is not before the creation date. *)
Theorem dates_through_saves :
  forall (t0 id : Z) (name : string) (category zone max_usage organization : Z)
         (state : option string) (edits : list (Z * DeviceAdmin.form)),
    let created :=
      Device.create t0 id name category zone max_usage organization state in
    let d :=
      fold_left (fun d e => DeviceAdmin.save_form (fst e) (snd e) d) edits created in
    Device.id d = id
    /\ BaseModel.created_at (Device.base d) = t0
    /\ BaseModel.deleted_at (Device.base d) = None
    /\ BaseModel.updated_at (Device.base d) = last (map fst edits) t0
    /\ BaseModel.state (Device.base d)
       = last (map (fun e => DeviceAdmin.form_state (snd e)) edits)
           (kwarg "ACTIVE" state)
    /\ (Forall (fun e => t0 <= fst e) edits ->
        BaseModel.created_at (Device.base d) <= BaseModel.updated_at (Device.base d)).
Proof.
  intros t0 id name category zone max_usage organization state edits created d.
  assert (Hgen : forall d0,
             let d1 :=
               fold_left (fun d e => DeviceAdmin.save_form (fst e) (snd e) d) edits d0 in
             Device.id d1 = Device.id d0
             /\ BaseModel.created_at (Device.base d1)
                = BaseModel.created_at (Device.base d0)
             /\ BaseModel.deleted_at (Device.base d1)
                = BaseModel.deleted_at (Device.base d0)
             /\ BaseModel.updated_at (Device.base d1)
                = last (map fst edits) (BaseModel.updated_at (Device.base d0))
             /\ BaseModel.state (Device.base d1)
                = last (map (fun e => DeviceAdmin.form_state (snd e)) edits)
                    (BaseModel.state (Device.base d0))).
  { clear. induction edits as [|[t f] edits IH]; intros d0; cbn [fold_left]; [now cbn|].
    destruct (IH (DeviceAdmin.save_form (fst (t, f)) (snd (t, f)) d0))
      as (H1 & H2 & H3 & H4 & H5).
    cbv zeta. rewrite H1, H2, H3, H4, H5. cbn [map]. rewrite !last_cons.
    repeat split. }
  destruct (Hgen created) as (H1 & H2 & H3 & H4 & H5). fold d in H1, H2, H3, H4, H5.
  rewrite H1, H2, H3, H4, H5. subst created. cbn [Device.create Device.id Device.base
    BaseModel.create BaseModel.created_at BaseModel.updated_at BaseModel.deleted_at
    BaseModel.state].
  repeat split.
  intros Hall. clear -Hall.
  assert (Hlast : forall t, t0 <= t -> t0 <= last (map fst edits) t).
  { induction edits as [|e edits IH]; intros t Ht; cbn [map]; [exact Ht|].
    inversion Hall as [|? ? He Hrest]; subst.
    rewrite last_cons. now apply IH. }
  apply Hlast. lia.
Qed.

Lemma dates_through_saves_witness :
  BaseModel.created_at
    (Device.base
       (fold_left (fun d e => DeviceAdmin.save_form (fst e) (snd e) d)
          [(4, DeviceAdmin.mk_form "D1" 1 1 1 100 "INACTIVE");
           (9, DeviceAdmin.mk_form "D1b" 1 1 1 200 "ACTIVE")]
          (Device.create 3 1 "D1" 1 1 100 1 None)))
  <= BaseModel.updated_at
       (Device.base
          (fold_left (fun d e => DeviceAdmin.save_form (fst e) (snd e) d)
             [(4, DeviceAdmin.mk_form "D1" 1 1 1 100 "INACTIVE");
              (9, DeviceAdmin.mk_form "D1b" 1 1 1 200 "ACTIVE")]
             (Device.create 3 1 "D1" 1 1 100 1 None))).
Proof.
  apply (dates_through_saves 3 1 "D1" 1 1 100 1 None
           [(4, DeviceAdmin.mk_form "D1" 1 1 1 100 "INACTIVE");
            (9, DeviceAdmin.mk_form "D1b" 1 1 1 200 "ACTIVE")]).
  repeat constructor; cbn; lia.
Defined.
